(** * Invoice upload pipeline (fin-invoice-ocr-team6, backend)

    A shallow embedding of the Express controller
    [backend/src/controllers/invoiceController.js], of the router
    [backend/src/routes/invoiceRoutes.js], and of the validators of
    [backend/src/services/invoiceServices.js] that the controller awaits.

    The controller is an [async] function made of [try]/[catch] blocks with
    early [return]s.  It is embedded in a small monad of statement
    completions (normal, return, throw) that also records, in order, every
    call made to a collaborator, so that "stage X is never invoked" is a
    statement about the recorded trace. *)

From Stdlib Require Import List String Ascii Strings.Byte Bool ZArith NArith Lia.
Import ListNotations.

#[local] Set Warnings "-register-all".

Local Open Scope string_scope.
Local Open Scope list_scope.

(** ** JavaScript values *)

Module Js.

(** The values that flow through the handler: request fields, query
    parameters, what the collaborators resolve to and the JSON bodies that
    are sent back. *)
Inductive Value : Type :=
| Undefined
| Null
| Bool (b : bool)
| Num (n : Z)
| Str (s : string)
| Arr (items : list Value)
| Obj (props : list (string * Value)).

(** What a [throw] carries.  Only the constructor name and the message are
    kept. *)
Inductive Error : Type :=
| Err (message : string)
| TypeError (message : string).

(** [ToBoolean]: the operand of [!] and of [if]. *)
Definition truthy (v : Value) : bool :=
  match v with
  | Undefined | Null => false
  | Bool b => b
  | Num n => negb (n =? 0)%Z
  | Str s => negb (s =? "")
  | Arr _ | Obj _ => true
  end.

(** [v === s] where [s] is a string literal: without coercion, so only a
    string primitive with the same characters is equal. *)
Definition strict_eq_str (v : Value) (s : string) : bool :=
  match v with
  | Str t => (t =? s)
  | _ => false
  end.

(** Property read [o.k] on a plain object given by its own properties: the
    first binding of [k], or [undefined]. *)
Fixpoint get (k : string) (props : list (string * Value)) : Value :=
  match props with
  | [] => Undefined
  | (k', v) :: rest => if (k' =? k) then v else get k rest
  end.

(** Outcome of an awaited promise that settles.  A promise that stays
    pending is not represented: what follows is about requests whose
    awaited promises all settle. *)
Inductive Outcome (A : Type) : Type :=
| Resolved (a : A)
| Rejected (e : Error).
Arguments Resolved {A} a.
Arguments Rejected {A} e.

End Js.

(** ** Request, response and collaborators *)

(** A Node [Buffer]: a sequence of bytes. *)
Definition Buffer : Type := list byte.

(** [req.file] as Multer's memory storage fills it. *)
Record File : Type := mkFile {
  buffer : Buffer;
  originalname : string;
  mimetype : string
}.

(** The part of the Express request the handler reads.  [req.file] and
    [req.body] may be [undefined]; [req.query] is always an object. *)
Record Request : Type := mkRequest {
  file : option File;
  body : option (list (string * Js.Value));
  query : list (string * Js.Value)
}.

(** [res.status(code).json(payload)]. *)
Record Response : Type := mkResponse {
  status : Z;
  json : Js.Value
}.

Definition message (s : string) : Js.Value := Js.Obj [("message", Js.Str s)].

(** The collaborators [authService] and [invoiceService].  Their modules are
    required by the controller; here each is a function from its arguments
    to the outcome of the promise it returns. *)
Record Services : Type := mkServices {
  authenticate : Js.Value -> Js.Value -> Js.Outcome Js.Value;
  validatePDF : Buffer -> string -> string -> Js.Outcome Js.Value;
  isPdfEncrypted : Buffer -> Js.Outcome Js.Value;
  checkPdfIntegrity : Buffer -> Js.Outcome Js.Value;
  validateSizeFile : Buffer -> Js.Outcome Js.Value;
  uploadInvoiceService : File -> Js.Outcome Js.Value
}.

(** One entry of the trace per call made to a collaborator. *)
Inductive Call : Type :=
| CallAuthenticate (client_id client_secret : Js.Value)
| CallValidatePDF (b : Buffer) (mime name : string)
| CallIsPdfEncrypted (b : Buffer)
| CallCheckPdfIntegrity (b : Buffer)
| CallValidateSizeFile (b : Buffer)
| CallUploadInvoice (f : File).

(** ** Statement completions *)

Module Stmt.

(** How a block of statements completes: it falls through with a value, it
    executes [return r], or it throws. *)
Inductive Completion (A : Type) : Type :=
| Normal (a : A)
| Return (r : Response)
| Throw (e : Js.Error).
Arguments Normal {A} a.
Arguments Return {A} r.
Arguments Throw {A} e.

(** A block: the collaborator calls it made, in order, and its completion. *)
Definition t (A : Type) : Type := (list Call * Completion A)%type.

Definition pure {A} (a : A) : t A := ([], Normal a).

Definition bind {A B} (m : t A) (k : A -> t B) : t B :=
  match m with
  | (tr, Normal a) => let '(tr', c) := k a in (tr ++ tr', c)
  | (tr, Return r) => (tr, Return r)
  | (tr, Throw e) => (tr, Throw e)
  end.

(** [return r;] *)
Definition return_ {A} (r : Response) : t A := ([], Return r).

(** [throw e;] *)
Definition throw {A} (e : Js.Error) : t A := ([], Throw e).

(** [try { m } catch (e) { h e }]: only a throw enters the handler; a
    [return] inside [m] leaves the enclosing function. *)
Definition try_catch {A} (m : t A) (h : Js.Error -> t A) : t A :=
  match m with
  | (tr, Throw e) => let '(tr', c) := h e in (tr ++ tr', c)
  | _ => m
  end.

(** [await call]: the call is recorded; a rejected promise throws. *)
Definition await {A} (c : Call) (o : Js.Outcome A) : t A :=
  match o with
  | Js.Resolved a => ([c], Normal a)
  | Js.Rejected e => ([c], Throw e)
  end.

(** [if (b) { m }] with no [else]. *)
Definition when (b : bool) (m : t unit) : t unit :=
  if b then m else pure tt.

(** [const { ... } = o]: destructuring [undefined] throws a [TypeError]. *)
Definition destructure {A} (what : string) (o : option A) : t A :=
  match o with
  | Some a => pure a
  | None => throw (Js.TypeError ("Cannot destructure '" ++ what ++ "' as it is undefined."))
  end.

End Stmt.

Declare Scope stmt_scope.
Delimit Scope stmt_scope with stmt.
Notation "x <- m ;; k" := (Stmt.bind m (fun x => k))
  (at level 100, m at next level, right associativity) : stmt_scope.
Notation "m ;; k" := (Stmt.bind m (fun _ => k))
  (at level 100, right associativity) : stmt_scope.
Notation "'TRY' m 'CATCH' e '=>' h" := (Stmt.try_catch m (fun e => h))
  (at level 100, m at level 200, e name, h at level 200) : stmt_scope.

(** ** The controller *)

Definition no_file_uploaded : Response := mkResponse 400 (message "No file uploaded").
Definition unauthorized : Response := mkResponse 401 (message "Unauthorized").
Definition auth_internal_error : Response := mkResponse 500 (message "Internal Server Error").
Definition server_timeout : Response := mkResponse 504 (message "Server timeout during upload").
Definition not_pdf : Response := mkResponse 415 (message "File format is not PDF").
Definition pdf_encrypted : Response := mkResponse 400 (message "pdf is encrypted").
Definition pdf_invalid : Response := mkResponse 400 (message "PDF file is invalid").
Definition size_exceeded : Response := mkResponse 413 (message "File size exceeds maximum limit").
Definition internal_server_error : Response := mkResponse 500 (message "Internal server error").

Section Controller.

Variable svc : Services.

Local Open Scope stmt_scope.

(** The body of the outer [try] of [exports.uploadInvoice]. *)
Definition uploadInvoice_try (req : Request) : Stmt.t unit :=
  Stmt.when (negb (match file req with Some _ => true | None => false end))
    (Stmt.return_ no_file_uploaded) ;;
  f <- Stmt.destructure "req.file" (file req) ;;
  b <- Stmt.destructure "req.body" (body req) ;;
  let client_id := Js.get "client_id" b in
  let client_secret := Js.get "client_secret" b in
  (TRY
     isAuthorized <- Stmt.await (CallAuthenticate client_id client_secret)
                                (authenticate svc client_id client_secret) ;;
     Stmt.when (negb (Js.truthy isAuthorized)) (Stmt.return_ unauthorized)
   CATCH authError =>
     Stmt.return_ auth_internal_error) ;;
  Stmt.when (Js.strict_eq_str (Js.get "simulateTimeout" (query req)) "true")
    (Stmt.return_ server_timeout) ;;
  (TRY
     _ <- Stmt.await (CallValidatePDF (buffer f) (mimetype f) (originalname f))
                     (validatePDF svc (buffer f) (mimetype f) (originalname f)) ;;
     Stmt.pure tt
   CATCH error =>
     Stmt.return_ not_pdf) ;;
  isEncrypted <- Stmt.await (CallIsPdfEncrypted (buffer f)) (isPdfEncrypted svc (buffer f)) ;;
  Stmt.when (Js.truthy isEncrypted) (Stmt.return_ pdf_encrypted) ;;
  isValidPdf <- Stmt.await (CallCheckPdfIntegrity (buffer f)) (checkPdfIntegrity svc (buffer f)) ;;
  Stmt.when (negb (Js.truthy isValidPdf)) (Stmt.return_ pdf_invalid) ;;
  (TRY
     _ <- Stmt.await (CallValidateSizeFile (buffer f)) (validateSizeFile svc (buffer f)) ;;
     Stmt.pure tt
   CATCH error =>
     Stmt.return_ size_exceeded) ;;
  result <- Stmt.await (CallUploadInvoice f) (uploadInvoiceService svc f) ;;
  Stmt.return_ (mkResponse 501 result).

(** [exports.uploadInvoice]: the outer [try] with its [catch]. *)
Definition uploadInvoice (req : Request) : Stmt.t unit :=
  TRY uploadInvoice_try req
  CATCH error => Stmt.return_ internal_server_error.

End Controller.

(** How the promise of the [async] handler ends for Express: the response
    sent, if any.  A handler that falls off its end or lets a throw escape
    sends nothing. *)
Definition response_of (c : Stmt.Completion unit) : option Response :=
  match c with
  | Stmt.Return r => Some r
  | Stmt.Normal _ | Stmt.Throw _ => None
  end.

(** ** The pipeline as an ordered list of stages

    The reading of the handler that the design documents give: eight stages
    in a fixed order, each one either passing or stopping the request with
    a response. *)

Inductive Stage : Type :=
| FilePresence
| Authentication
| TimeoutHook
| FormatValidation
| EncryptionDetection
| IntegrityCheck
| SizeValidation
| UploadDelegation.

Definition pipeline_order : list Stage :=
  [FilePresence; Authentication; TimeoutHook; FormatValidation;
   EncryptionDetection; IntegrityCheck; SizeValidation; UploadDelegation].

Inductive Verdict : Type :=
| Passes
| Stops (r : Response).

(** The HTTP status each stage answers with when it is the one that ends
    the request: the failure status of the seven checks, and 501 for the
    delegation, whose collaborator is a stub. *)
Definition stage_status (s : Stage) : Z :=
  match s with
  | FilePresence => 400
  | Authentication => 401
  | TimeoutHook => 504
  | FormatValidation => 415
  | EncryptionDetection => 400
  | IntegrityCheck => 400
  | SizeValidation => 413
  | UploadDelegation => 501
  end.

(** The collaborator behind each call, for comparing traces by kind. *)
Inductive Collaborator : Type :=
| KAuthenticate
| KValidatePDF
| KIsPdfEncrypted
| KCheckPdfIntegrity
| KValidateSizeFile
| KUploadInvoice.

Definition collaborator_of (c : Call) : Collaborator :=
  match c with
  | CallAuthenticate _ _ => KAuthenticate
  | CallValidatePDF _ _ _ => KValidatePDF
  | CallIsPdfEncrypted _ => KIsPdfEncrypted
  | CallCheckPdfIntegrity _ => KCheckPdfIntegrity
  | CallValidateSizeFile _ => KValidateSizeFile
  | CallUploadInvoice _ => KUploadInvoice
  end.

Definition call_order : list Collaborator :=
  [KAuthenticate; KValidatePDF; KIsPdfEncrypted; KCheckPdfIntegrity;
   KValidateSizeFile; KUploadInvoice].

Section Pipeline.

Variable svc : Services.
Variable req : Request.

(** A stage that works on the attachment; without one, reading it throws. *)
Definition on_file (k : File -> list Call * Verdict) : list Call * Verdict :=
  match file req with
  | Some f => k f
  | None => ([], Stops internal_server_error)
  end.

(** What one stage does on its own: the call it makes and its verdict. *)
Definition stage_run (s : Stage) : list Call * Verdict :=
  match s with
  | FilePresence =>
      ([], match file req with
           | Some _ => Passes
           | None => Stops no_file_uploaded
           end)
  | Authentication =>
      match body req with
      | None => ([], Stops internal_server_error)
      | Some b =>
          let client_id := Js.get "client_id" b in
          let client_secret := Js.get "client_secret" b in
          ([CallAuthenticate client_id client_secret],
           match authenticate svc client_id client_secret with
           | Js.Resolved v => if Js.truthy v then Passes else Stops unauthorized
           | Js.Rejected _ => Stops auth_internal_error
           end)
      end
  | TimeoutHook =>
      ([], if Js.strict_eq_str (Js.get "simulateTimeout" (query req)) "true"
           then Stops server_timeout else Passes)
  | FormatValidation =>
      on_file (fun f =>
        ([CallValidatePDF (buffer f) (mimetype f) (originalname f)],
         match validatePDF svc (buffer f) (mimetype f) (originalname f) with
         | Js.Resolved _ => Passes
         | Js.Rejected _ => Stops not_pdf
         end))
  | EncryptionDetection =>
      on_file (fun f =>
        ([CallIsPdfEncrypted (buffer f)],
         match isPdfEncrypted svc (buffer f) with
         | Js.Resolved v => if Js.truthy v then Stops pdf_encrypted else Passes
         | Js.Rejected _ => Stops internal_server_error
         end))
  | IntegrityCheck =>
      on_file (fun f =>
        ([CallCheckPdfIntegrity (buffer f)],
         match checkPdfIntegrity svc (buffer f) with
         | Js.Resolved v => if Js.truthy v then Passes else Stops pdf_invalid
         | Js.Rejected _ => Stops internal_server_error
         end))
  | SizeValidation =>
      on_file (fun f =>
        ([CallValidateSizeFile (buffer f)],
         match validateSizeFile svc (buffer f) with
         | Js.Resolved _ => Passes
         | Js.Rejected _ => Stops size_exceeded
         end))
  | UploadDelegation =>
      on_file (fun f =>
        ([CallUploadInvoice f],
         match uploadInvoiceService svc f with
         | Js.Resolved result => Stops (mkResponse 501 result)
         | Js.Rejected _ => Stops internal_server_error
         end))
  end.

(** Stages run in list order; the first one that stops ends the run, and the
    stages after it contribute neither a call nor a response. *)
Fixpoint first_stop (stages : list Stage) : list Call * option Response :=
  match stages with
  | [] => ([], None)
  | s :: rest =>
      match stage_run s with
      | (tr, Stops r) => (tr, Some r)
      | (tr, Passes) => let '(tr', r) := first_stop rest in (tr ++ tr', r)
      end
  end.

(** *** How far a request gets

    The conditions under which control reaches each await of the handler,
    read off the branches before it. *)

Definition credentials (b : list (string * Js.Value)) : Js.Value * Js.Value :=
  (Js.get "client_id" b, Js.get "client_secret" b).

Definition authenticate_call (b : list (string * Js.Value)) : Call :=
  CallAuthenticate (fst (credentials b)) (snd (credentials b)).

Definition authenticate_outcome (b : list (string * Js.Value)) : Js.Outcome Js.Value :=
  authenticate svc (fst (credentials b)) (snd (credentials b)).

Definition simulate_timeout : bool :=
  Js.strict_eq_str (Js.get "simulateTimeout" (query req)) "true".

Definition authenticated (f : File) (b : list (string * Js.Value)) : Prop :=
  file req = Some f /\ body req = Some b /\
  exists v, authenticate_outcome b = Js.Resolved v /\ Js.truthy v = true.

Definition reaches_format (f : File) (b : list (string * Js.Value)) : Prop :=
  authenticated f b /\ simulate_timeout = false.

Definition reaches_encryption (f : File) (b : list (string * Js.Value)) : Prop :=
  reaches_format f b /\
  exists v, validatePDF svc (buffer f) (mimetype f) (originalname f) = Js.Resolved v.

Definition reaches_integrity (f : File) (b : list (string * Js.Value)) : Prop :=
  reaches_encryption f b /\
  exists v, isPdfEncrypted svc (buffer f) = Js.Resolved v /\ Js.truthy v = false.

Definition reaches_size (f : File) (b : list (string * Js.Value)) : Prop :=
  reaches_integrity f b /\
  exists v, checkPdfIntegrity svc (buffer f) = Js.Resolved v /\ Js.truthy v = true.

Definition reaches_upload (f : File) (b : list (string * Js.Value)) : Prop :=
  reaches_size f b /\
  exists v, validateSizeFile svc (buffer f) = Js.Resolved v.

(** The calls made up to and including each validator. *)
Definition calls_to_format (f : File) (b : list (string * Js.Value)) : list Call :=
  [authenticate_call b; CallValidatePDF (buffer f) (mimetype f) (originalname f)].

Definition calls_to_encryption (f : File) (b : list (string * Js.Value)) : list Call :=
  calls_to_format f b ++ [CallIsPdfEncrypted (buffer f)].

Definition calls_to_integrity (f : File) (b : list (string * Js.Value)) : list Call :=
  calls_to_encryption f b ++ [CallCheckPdfIntegrity (buffer f)].

Definition calls_to_size (f : File) (b : list (string * Js.Value)) : list Call :=
  calls_to_integrity f b ++ [CallValidateSizeFile (buffer f)].

Definition calls_to_upload (f : File) (b : list (string * Js.Value)) : list Call :=
  calls_to_size f b ++ [CallUploadInvoice f].

End Pipeline.

(** Two sets of collaborators that behave alike except for what their
    rejections carry. *)
Definition same_settlement {A} (o o' : Js.Outcome A) : Prop :=
  match o, o' with
  | Js.Resolved a, Js.Resolved a' => a = a'
  | Js.Rejected _, Js.Rejected _ => True
  | _, _ => False
  end.

Record same_up_to_fault_detail (s s' : Services) : Prop := {
  same_authenticate : forall i k, same_settlement (authenticate s i k) (authenticate s' i k);
  same_validatePDF : forall b m n, same_settlement (validatePDF s b m n) (validatePDF s' b m n);
  same_isPdfEncrypted : forall b, same_settlement (isPdfEncrypted s b) (isPdfEncrypted s' b);
  same_checkPdfIntegrity : forall b, same_settlement (checkPdfIntegrity s b) (checkPdfIntegrity s' b);
  same_validateSizeFile : forall b, same_settlement (validateSizeFile s b) (validateSizeFile s' b);
  same_uploadInvoiceService : forall f, same_settlement (uploadInvoiceService s f) (uploadInvoiceService s' f)
}.

(** ** The validators of services/invoiceServices.js

    The controller awaits [invoiceService.validatePDF], [isPdfEncrypted],
    [validateSizeFile].  Their module is exercised by the test suite
    (tests/invoice.test.js), which fixes their results on the fixtures below
    and the messages of their rejections. *)

Module InvoiceServices.

Inductive ErrorKind : Type :=
| InvalidMimeType
| InvalidExtension
| InvalidPdfContent
| FileTooLarge.

(** The messages the test suite expects from [rejects.toThrow]. *)
Definition error_message (k : ErrorKind) : string :=
  match k with
  | InvalidMimeType => "Invalid MIME type"
  | InvalidExtension => "Invalid file extension"
  | InvalidPdfContent => "Invalid PDF file"
  | FileTooLarge => "File exceeds maximum allowed size of 20MB"
  end.

Inductive Outcome : Type :=
| Succeeds
| Fails (k : ErrorKind).

(** The settled promise of a validator: [true], or an [Error] with the
    message of its kind. *)
Definition to_promise (o : Outcome) : Js.Outcome Js.Value :=
  match o with
  | Succeeds => Js.Resolved (Js.Bool true)
  | Fails k => Js.Rejected (Js.Err (error_message k))
  end.

(** [Buffer.from(s)] for a string of one-byte characters. *)
Definition Buffer_from (s : string) : Buffer := list_byte_of_string s.

Definition byteLength (b : Buffer) : N := N.of_nat (List.length b).

(** [Buffer.alloc(size, fill)]: [size] bytes, the fill pattern repeated and
    cut; zeros when the pattern is empty. *)
Fixpoint alloc_from (size : nat) (fill rest : list byte) : Buffer :=
  match size with
  | O => []
  | S n =>
      match rest with
      | c :: rest' => c :: alloc_from n fill rest'
      | [] =>
          match fill with
          | c :: fill' => c :: alloc_from n fill fill'
          | [] => x00 :: alloc_from n fill []
          end
      end
  end.

Definition Buffer_alloc (size : N) (fill : string) : Buffer :=
  alloc_from (N.to_nat size) (list_byte_of_string fill) (list_byte_of_string fill).

Fixpoint starts_with (prefix content : list byte) : bool :=
  match prefix, content with
  | [], _ => true
  | _ :: _, [] => false
  | p :: prefix', c :: content' => Byte.eqb p c && starts_with prefix' content'
  end.

(** Whether [needle] occurs somewhere in [content]. *)
Fixpoint includes (needle content : list byte) : bool :=
  starts_with needle content ||
  match content with
  | [] => false
  | _ :: content' => includes needle content'
  end.

(** Modelled from the spec: the extension that [validatePDF] of
    services/invoiceServices.js (not among the sources) compares with
    [.pdf].  It is the last dot of the file name and what follows, or the
    empty string when the name has no dot; section 4.1 leaves the case rule
    open and the comparison is made on the name as written. *)
Fixpoint extension (name : string) : string :=
  match name with
  | EmptyString => EmptyString
  | String c rest =>
      match extension rest with
      | EmptyString => if Ascii.eqb c "."%char then name else EmptyString
      | later => later
      end
  end.

Definition pdf_signature : list byte := list_byte_of_string "%PDF-".

(** Modelled from the spec: the content check of [validatePDF], on the
    header prefix only. *)
Definition has_pdf_signature (content : Buffer) : bool :=
  starts_with pdf_signature content.

Inductive FormatCheck : Type :=
| MimeCheck
| ExtensionCheck
| ContentCheck.

(** Modelled from the spec: [validatePDF] of services/invoiceServices.js,
    whose file is not among the sources.  Section 4.1: fails InvalidMimeType
    unless the declared type is exactly [application/pdf]; fails
    InvalidExtension unless the extension is [.pdf]; fails InvalidPdfContent
    unless the content begins with [%PDF-]; the checks run in that order and
    the first failure is the one reported, the later checks not being
    evaluated.  The first component lists the checks evaluated. *)
Definition validateFormat (content : Buffer) (declaredMimeType filename : string)
  : list FormatCheck * Outcome :=
  if negb (declaredMimeType =? "application/pdf") then
    ([MimeCheck], Fails InvalidMimeType)
  else if negb (extension filename =? ".pdf") then
    ([MimeCheck; ExtensionCheck], Fails InvalidExtension)
  else if negb (has_pdf_signature content) then
    ([MimeCheck; ExtensionCheck; ContentCheck], Fails InvalidPdfContent)
  else
    ([MimeCheck; ExtensionCheck; ContentCheck], Succeeds).

(** Modelled from the spec: the promise of [validatePDF], which the source
    of the service would settle; it resolves to [true] or rejects with the
    message the test suite reads. *)
Definition validatePDF (content : Buffer) (mime name : string) : Js.Outcome Js.Value :=
  to_promise (snd (validateFormat content mime name)).

Definition MAX_FILE_SIZE : N := 20 * 1024 * 1024.

(** Modelled from the spec: [validateSizeFile] of services/invoiceServices.js,
    whose file is not among the sources.  Section 4.2: the maximum is
    20 x 1024 x 1024 bytes and the bound is inclusive. *)
Definition validateSize (content : Buffer) : Outcome :=
  if (byteLength content <=? MAX_FILE_SIZE)%N then Succeeds else Fails FileTooLarge.

(** Modelled from the spec: the promise of [validateSizeFile]. *)
Definition validateSizeFile (content : Buffer) : Js.Outcome Js.Value :=
  to_promise (validateSize content).

Definition encrypt_marker : list byte := list_byte_of_string "/Encrypt".
Definition standard_filter_marker : list byte := list_byte_of_string "/Filter/Standard".

(** Modelled from the spec: [isPdfEncrypted] of services/invoiceServices.js,
    whose file is not among the sources.  Section 4.3: a scan of the raw
    bytes for the [/Encrypt] reference of the trailer and/or a
    [/Filter/Standard] encryption dictionary; true if such a marker occurs
    anywhere in the bytes, false otherwise. *)
Definition isEncrypted (content : Buffer) : bool :=
  includes encrypt_marker content || includes standard_filter_marker content.

(** Modelled from the spec: the stricter reading of the "and/or" of
    section 4.3, where both markers are required. *)
Definition isEncrypted_both_markers (content : Buffer) : bool :=
  includes encrypt_marker content && includes standard_filter_marker content.

(** Modelled from the spec: the promise of [isPdfEncrypted], which always
    resolves, to the boolean of the scan. *)
Definition isPdfEncrypted (content : Buffer) : Js.Outcome Js.Value :=
  Js.Resolved (Js.Bool (isEncrypted content)).

(** *** Fixtures of the test suite *)

Definition LF : string := String (ascii_of_nat 10) EmptyString.

Definition validPdfBuffer : Buffer := Buffer_from "%PDF-1.4 Valid PDF File".
Definition invalidPdfBuffer : Buffer := Buffer_from "This is not a PDF".

Definition unencryptedPdfBuffer : Buffer :=
  Buffer_from
    ("%PDF-1.3" ++ LF ++
     "1 0 obj" ++ LF ++ "<</Type/Catalog/Pages 2 0 R>>" ++ LF ++ "endobj" ++ LF ++
     "2 0 obj" ++ LF ++ "<</Type/Pages/Kids[3 0 R]/Count 1>>" ++ LF ++ "endobj" ++ LF ++
     "3 0 obj" ++ LF ++ "<</Type/Page/MediaBox[0 0 595 842]/Parent 2 0 R/Resources<<>>>>" ++ LF ++ "endobj" ++ LF ++
     "xref" ++ LF ++ "0 4" ++ LF ++ "0000000000 65535 f" ++ LF ++ "0000000010 00000 n" ++ LF ++ "0000000053 00000 n" ++ LF ++ "0000000102 00000 n" ++ LF ++
     "trailer" ++ LF ++ "<</Size 4/Root 1 0 R>>" ++ LF ++
     "startxref" ++ LF ++ "178" ++ LF ++ "%%EOF").

Definition encryptedPdfBuffer : Buffer :=
  Buffer_from
    ("%PDF-1.3" ++ LF ++
     "1 0 obj" ++ LF ++ "<</Type/Catalog/Pages 2 0 R>>" ++ LF ++ "endobj" ++ LF ++
     "2 0 obj" ++ LF ++ "<</Type/Pages/Kids[3 0 R]/Count 1>>" ++ LF ++ "endobj" ++ LF ++
     "3 0 obj" ++ LF ++ "<</Type/Page/MediaBox[0 0 595 842]/Parent 2 0 R/Resources<<>>>>" ++ LF ++ "endobj" ++ LF ++
     "4 0 obj" ++ LF ++ "<</Filter/Standard/V 1/R 2/O<1234567890ABCDEF1234567890ABCDEF>/U<ABCDEF1234567890ABCDEF1234567890>/P -3904>>" ++ LF ++ "endobj" ++ LF ++
     "xref" ++ LF ++ "0 5" ++ LF ++ "0000000000 65535 f" ++ LF ++ "0000000010 00000 n" ++ LF ++ "0000000053 00000 n" ++ LF ++ "0000000102 00000 n" ++ LF ++ "0000000183 00000 n" ++ LF ++
     "trailer" ++ LF ++ "<</Size 5/Root 1 0 R/Encrypt 4 0 R>>" ++ LF ++
     "startxref" ++ LF ++ "291" ++ LF ++ "%%EOF").

Definition sizedPdfBuffer (size : N) : Buffer :=
  Buffer_alloc size "%PDF-1.4 Valid PDF File".

End InvoiceServices.

(** ** The router

    [router.post('/upload', InvoiceController.uploadInvoice)]: the handlers
    registered for the route, run in order on the request object Express
    builds for the incoming message. *)

(** An incoming HTTP message: its query string as parsed by Express, the
    body as any parser mounted before the router left it, and its multipart
    payload (text fields and the part named [file]) when it has one. *)
Record HttpRequest : Type := mkHttpRequest {
  url_query : list (string * Js.Value);
  parsed_body : option (list (string * Js.Value));
  multipart : option (list (string * Js.Value) * option File)
}.

(** The request object before any file-parsing middleware: Express defines
    no [file] property. *)
Definition express_request (h : HttpRequest) : Request :=
  mkRequest None (parsed_body h) (url_query h).

(** [upload.single('file')] with memory storage: on a multipart message it
    sets [req.body] to the text fields and [req.file] to the part named
    [file]; other messages are left alone.  The text fields are taken to
    have distinct names (Multer gathers repeated names into an array). *)
Definition multer_single (h : HttpRequest) (req : Request) : Request :=
  match multipart h with
  | Some (fields, part) => mkRequest part (Some fields) (query req)
  | None => req
  end.

(** [exports.uploadMiddleware]: responds itself, or calls [next] with the
    request it filled. *)
Definition uploadMiddleware (h : HttpRequest) (req : Request) : Response + Request :=
  let req' := multer_single h req in
  match file req' with
  | None => inl no_file_uploaded
  | Some _ => inr req'
  end.

Inductive Handler : Type :=
| UploadMiddleware
| UploadInvoice.

Fixpoint dispatch (svc : Services) (h : HttpRequest) (handlers : list Handler)
  (req : Request) : list Call * option Response :=
  match handlers with
  | [] => ([], None)
  | UploadMiddleware :: rest =>
      match uploadMiddleware h req with
      | inl r => ([], Some r)
      | inr req' => dispatch svc h rest req'
      end
  | UploadInvoice :: _ =>
      let '(tr, c) := uploadInvoice svc req in (tr, response_of c)
  end.

(** The handlers of [POST /upload] as the router registers them. *)
Definition post_upload : list Handler := [UploadInvoice].

Definition route_post_upload (svc : Services) (h : HttpRequest) : list Call * option Response :=
  dispatch svc h post_upload (express_request h).

(** The same route with the file-parsing middleware in front. *)
Definition post_upload_with_middleware : list Handler := [UploadMiddleware; UploadInvoice].

(** ** Sample collaborators and requests *)

Module Sample.

Import InvoiceServices.

Definition accepts_client : Js.Value -> Js.Value -> Js.Outcome Js.Value :=
  fun client_id client_secret =>
    Js.Resolved (Js.Bool (Js.strict_eq_str client_id "client" &&
                          Js.strict_eq_str client_secret "secret")).

Definition integrity_ok : Buffer -> Js.Outcome Js.Value :=
  fun _ => Js.Resolved (Js.Bool true).

(** The upload stub; its message is the one the test suite reads back. *)
Definition upload_stub : File -> Js.Outcome Js.Value :=
  fun _ => Js.Resolved (message "Invoice upload service called").

Definition services : Services :=
  mkServices accepts_client validatePDF isPdfEncrypted integrity_ok validateSizeFile upload_stub.

Definition boom : Js.Error := Js.Err "ECONNREFUSED 10.0.0.7:5432".

Definition auth_down : Services :=
  mkServices (fun _ _ => Js.Rejected boom)
             validatePDF isPdfEncrypted integrity_ok validateSizeFile upload_stub.

Definition detector_down : Services :=
  mkServices accepts_client validatePDF (fun _ => Js.Rejected boom)
             integrity_ok validateSizeFile upload_stub.

Definition integrity_down : Services :=
  mkServices accepts_client validatePDF isPdfEncrypted (fun _ => Js.Rejected boom)
             validateSizeFile upload_stub.

Definition upload_down : Services :=
  mkServices accepts_client validatePDF isPdfEncrypted integrity_ok validateSizeFile
             (fun _ => Js.Rejected boom).

Definition good_body : list (string * Js.Value) :=
  [("client_id", Js.Str "client"); ("client_secret", Js.Str "secret")].

Definition bad_body : list (string * Js.Value) :=
  [("client_id", Js.Str "client"); ("client_secret", Js.Str "guess")].

Definition pdf_file : File := mkFile unencryptedPdfBuffer "invoice.pdf" "application/pdf".

Definition request_with (q : list (string * Js.Value)) : Request :=
  mkRequest (Some pdf_file) (Some good_body) q.

Definition good_request : Request := request_with [].

Definition timeout_request : Request := request_with [("simulateTimeout", Js.Str "true")].

Definition bad_credentials_request : Request :=
  mkRequest (Some pdf_file) (Some bad_body) [].

Definition multipart_message : HttpRequest :=
  mkHttpRequest [] None (Some (good_body, Some pdf_file)).

End Sample.

(** ** The ways the handler ends

    One constructor per [return] of [exports.uploadInvoice], with the
    branch conditions that lead to it, the calls made on the way and the
    response sent. *)

Inductive Answer (svc : Services) (req : Request) : list Call -> Response -> Prop :=
| NoFile :
    file req = None ->
    Answer svc req [] no_file_uploaded
| NoBody f :
    file req = Some f -> body req = None ->
    Answer svc req [] internal_server_error
| AuthenticateFault f b e :
    file req = Some f -> body req = Some b ->
    authenticate_outcome svc b = Js.Rejected e ->
    Answer svc req [authenticate_call b] auth_internal_error
| Denied f b v :
    file req = Some f -> body req = Some b ->
    authenticate_outcome svc b = Js.Resolved v -> Js.truthy v = false ->
    Answer svc req [authenticate_call b] unauthorized
| TimedOut f b :
    authenticated svc req f b -> simulate_timeout req = true ->
    Answer svc req [authenticate_call b] server_timeout
| BadFormat f b e :
    reaches_format svc req f b ->
    validatePDF svc (buffer f) (mimetype f) (originalname f) = Js.Rejected e ->
    Answer svc req (calls_to_format f b) not_pdf
| DetectorFault f b e :
    reaches_encryption svc req f b ->
    isPdfEncrypted svc (buffer f) = Js.Rejected e ->
    Answer svc req (calls_to_encryption f b) internal_server_error
| Encrypted f b v :
    reaches_encryption svc req f b ->
    isPdfEncrypted svc (buffer f) = Js.Resolved v -> Js.truthy v = true ->
    Answer svc req (calls_to_encryption f b) pdf_encrypted
| IntegrityFault f b e :
    reaches_integrity svc req f b ->
    checkPdfIntegrity svc (buffer f) = Js.Rejected e ->
    Answer svc req (calls_to_integrity f b) internal_server_error
| Corrupt f b v :
    reaches_integrity svc req f b ->
    checkPdfIntegrity svc (buffer f) = Js.Resolved v -> Js.truthy v = false ->
    Answer svc req (calls_to_integrity f b) pdf_invalid
| TooLarge f b e :
    reaches_size svc req f b ->
    validateSizeFile svc (buffer f) = Js.Rejected e ->
    Answer svc req (calls_to_size f b) size_exceeded
| UploadFault f b e :
    reaches_upload svc req f b ->
    uploadInvoiceService svc f = Js.Rejected e ->
    Answer svc req (calls_to_upload f b) internal_server_error
| Uploaded f b result :
    reaches_upload svc req f b ->
    uploadInvoiceService svc f = Js.Resolved result ->
    Answer svc req (calls_to_upload f b) (mkResponse 501 result).

(** The condition under which control reaches the call of each
    collaborator. *)
Definition guard (svc : Services) (req : Request) (f : File)
  (b : list (string * Js.Value)) (k : Collaborator) : Prop :=
  match k with
  | KAuthenticate => file req = Some f /\ body req = Some b
  | KValidatePDF => reaches_format svc req f b
  | KIsPdfEncrypted => reaches_encryption svc req f b
  | KCheckPdfIntegrity => reaches_integrity svc req f b
  | KValidateSizeFile => reaches_size svc req f b
  | KUploadInvoice => reaches_upload svc req f b
  end.

(** The arguments a call must carry when it is made for the attachment [f]
    and the body [b] of the request. *)
Definition call_about (f : File) (b : list (string * Js.Value)) (c : Call) : Prop :=
  match c with
  | CallAuthenticate client_id client_secret =>
      client_id = Js.get "client_id" b /\ client_secret = Js.get "client_secret" b
  | CallValidatePDF buf mime name =>
      buf = buffer f /\ mime = mimetype f /\ name = originalname f
  | CallIsPdfEncrypted buf => buf = buffer f
  | CallCheckPdfIntegrity buf => buf = buffer f
  | CallValidateSizeFile buf => buf = buffer f
  | CallUploadInvoice f' => f' = f
  end.

(** Everything of the request that the handler looks at: the attachment,
    the two credentials of the body (or that the body is missing), and
    whether the timeout flag is the string "true". *)
Definition reads (req : Request) : option File * option (Js.Value * Js.Value) * bool :=
  (file req, option_map credentials (body req), simulate_timeout req).

(** The fixed answers of the handler. *)
Definition fixed_answers : list Response :=
  [no_file_uploaded; unauthorized; auth_internal_error; server_timeout; not_pdf;
   pdf_encrypted; pdf_invalid; size_exceeded; internal_server_error].

(** The HTTP status the handler sends, if it sends a response. *)
Definition status_of (svc : Services) (req : Request) : option Z :=
  option_map status (response_of (snd (uploadInvoice svc req))).

(** The promise behind a recorded call. *)
Definition call_outcome (svc : Services) (c : Call) : Js.Outcome Js.Value :=
  match c with
  | CallAuthenticate client_id client_secret => authenticate svc client_id client_secret
  | CallValidatePDF b mime name => validatePDF svc b mime name
  | CallIsPdfEncrypted b => isPdfEncrypted svc b
  | CallCheckPdfIntegrity b => checkPdfIntegrity svc b
  | CallValidateSizeFile b => validateSizeFile svc b
  | CallUploadInvoice f => uploadInvoiceService svc f
  end.

(** A collaborator called while the request is handled rejects with [e]. *)
Definition raises (svc : Services) (req : Request) (e : Js.Error) : Prop :=
  exists c, In c (fst (uploadInvoice svc req)) /\ call_outcome svc c = Js.Rejected e.

(** Two outcomes the handler cannot tell apart when it only tests the
    value for truthiness. *)
Definition same_truth (o o' : Js.Outcome Js.Value) : Prop :=
  match o, o' with
  | Js.Resolved v, Js.Resolved v' => Js.truthy v = Js.truthy v'
  | Js.Rejected _, Js.Rejected _ => True
  | _, _ => False
  end.

(** Two outcomes the handler cannot tell apart when it drops the value. *)
Definition same_pass_fail (o o' : Js.Outcome Js.Value) : Prop :=
  match o, o' with
  | Js.Resolved _, Js.Resolved _ => True
  | Js.Rejected _, Js.Rejected _ => True
  | _, _ => False
  end.

Record same_verdicts (s s' : Services) : Prop := {
  verdict_authenticate : forall i k, same_truth (authenticate s i k) (authenticate s' i k);
  verdict_validatePDF : forall b m n, same_pass_fail (validatePDF s b m n) (validatePDF s' b m n);
  verdict_isPdfEncrypted : forall b, same_truth (isPdfEncrypted s b) (isPdfEncrypted s' b);
  verdict_checkPdfIntegrity : forall b, same_truth (checkPdfIntegrity s b) (checkPdfIntegrity s' b);
  verdict_validateSizeFile : forall b, same_pass_fail (validateSizeFile s b) (validateSizeFile s' b);
  verdict_uploadInvoiceService :
    forall f, same_settlement (uploadInvoiceService s f) (uploadInvoiceService s' f)
}.

(** ** The first version of the controller

    The controller kept beside the router source: it awaits
    [invoiceService.uploadInvoice()] with no argument and does not read the
    request. *)

Module Legacy.

(** [await p] for a call that passes no file, which has no entry among
    [Call]: nothing is recorded. *)
Definition settle {A} (o : Js.Outcome A) : Stmt.t A :=
  match o with
  | Js.Resolved a => ([], Stmt.Normal a)
  | Js.Rejected e => ([], Stmt.Throw e)
  end.

Local Open Scope stmt_scope.

(** [exports.uploadInvoice] of the first version; [upload] is the outcome
    of [invoiceService.uploadInvoice()]. *)
Definition uploadInvoice (upload : Js.Outcome Js.Value) (req : Request) : Stmt.t unit :=
  TRY
    result <- settle upload ;;
    Stmt.return_ (mkResponse 501 result)
  CATCH error =>
    Stmt.return_ (mkResponse 500 (message "Internal server error")).

End Legacy.

(** ** More sample requests *)

Module Cases.

Import InvoiceServices.

(** A size validator with a small bound, to exercise the size branch on a
    short buffer. *)
Definition at_most_64_bytes : Buffer -> Js.Outcome Js.Value :=
  fun b => if (byteLength b <=? 64)%N then Js.Resolved (Js.Bool true)
           else Js.Rejected (Js.Err "File exceeds maximum allowed size of 20MB").

Definition small_limit : Services :=
  mkServices Sample.accepts_client validatePDF isPdfEncrypted Sample.integrity_ok
             at_most_64_bytes Sample.upload_stub.

Definition rejects_integrity : Services :=
  mkServices Sample.accepts_client validatePDF isPdfEncrypted
             (fun _ => Js.Resolved (Js.Bool false))
             validateSizeFile Sample.upload_stub.

(** Collaborators that answer in other words: the authenticator with a
    token, the validators with [false] and [undefined], the detector with
    the empty string, the integrity checker with a count. *)
Definition loose_answers : Services :=
  mkServices (fun i k => match Sample.accepts_client i k with
                         | Js.Resolved (Js.Bool true) => Js.Resolved (Js.Str "token-17")
                         | other => other
                         end)
             (fun b m n => match validatePDF b m n with
                           | Js.Resolved _ => Js.Resolved (Js.Bool false)
                           | other => other
                           end)
             (fun b => if isEncrypted b then Js.Resolved (Js.Str "Standard")
                       else Js.Resolved (Js.Str ""))
             (fun _ => Js.Resolved (Js.Num 1))
             (fun b => match validateSizeFile b with
                       | Js.Resolved _ => Js.Resolved Js.Undefined
                       | other => other
                       end)
             Sample.upload_stub.

(** A format validator that breaks instead of judging the file. *)
Definition crash : Js.Error :=
  Js.TypeError "Cannot read properties of undefined (reading 'subarray')".

Definition format_crash : Services :=
  mkServices Sample.accepts_client (fun _ _ _ => Js.Rejected crash) isPdfEncrypted
             Sample.integrity_ok validateSizeFile Sample.upload_stub.

Definition size_crash : Services :=
  mkServices Sample.accepts_client validatePDF isPdfEncrypted Sample.integrity_ok
             (fun _ => Js.Rejected crash) Sample.upload_stub.

Definition encrypted_file : File := mkFile encryptedPdfBuffer "locked.pdf" "application/pdf".
Definition png_file : File := mkFile validPdfBuffer "valid.png" "image/png".

Definition request_for (f : File) : Request :=
  mkRequest (Some f) (Some Sample.good_body) [].

Definition no_file_request : Request :=
  mkRequest None (Some Sample.good_body) [("simulateTimeout", Js.Str "true")].

Definition no_body_request : Request := mkRequest (Some Sample.pdf_file) None [].

Definition empty_body_request : Request := mkRequest (Some Sample.pdf_file) (Some []) [].

(** A request that differs from [Sample.good_request] only in what the
    handler does not read. *)
Definition noisy_request : Request :=
  mkRequest (Some Sample.pdf_file)
            (Some (("note", Js.Str "urgent") :: Sample.good_body))
            [("simulateTimeout", Js.Str "1"); ("page", Js.Num 2)].

Definition plain_message : HttpRequest :=
  mkHttpRequest [] (Some Sample.good_body) None.

End Cases.

(** * Properties *)

(** ** The handler, branch by branch *)

#[local] Ltac unfold_handler :=
  unfold uploadInvoice, uploadInvoice_try, Stmt.try_catch, Stmt.bind, Stmt.when,
    Stmt.await, Stmt.destructure, Stmt.return_, Stmt.throw, Stmt.pure.

#[local] Ltac unfold_reach :=
  unfold reaches_upload, reaches_size, reaches_integrity, reaches_encryption,
    reaches_format, authenticated, simulate_timeout, authenticate_outcome,
    authenticate_call, credentials,
    calls_to_upload, calls_to_size, calls_to_integrity, calls_to_encryption,
    calls_to_format in *.

(** Splits a reachability hypothesis into the equations it stands for and
    rewrites the handler with them. *)
#[local] Ltac use_reach :=
  unfold_reach;
  repeat match goal with
         | H : _ /\ _ |- _ => destruct H
         | H : exists _, _ |- _ => destruct H
         end;
  cbn [fst snd] in *;
  unfold_handler;
  repeat match goal with
         | H : _ = _ |- _ => rewrite H
         end;
  cbn.

Section Branches.

Variable svc : Services.
Variable req : Request.

Lemma stops_without_file :
  file req = None ->
  uploadInvoice svc req = ([], Stmt.Return no_file_uploaded).
Proof. intros H. unfold_handler. rewrite H. reflexivity. Qed.

Lemma stops_without_body f :
  file req = Some f -> body req = None ->
  uploadInvoice svc req = ([], Stmt.Return internal_server_error).
Proof. intros Hf Hb. unfold_handler. rewrite Hf, Hb. reflexivity. Qed.

Lemma stops_when_authenticate_rejects f b e :
  file req = Some f -> body req = Some b ->
  authenticate_outcome svc b = Js.Rejected e ->
  uploadInvoice svc req = ([authenticate_call b], Stmt.Return auth_internal_error).
Proof. intros. use_reach. reflexivity. Qed.

Lemma stops_when_unauthorized f b v :
  file req = Some f -> body req = Some b ->
  authenticate_outcome svc b = Js.Resolved v -> Js.truthy v = false ->
  uploadInvoice svc req = ([authenticate_call b], Stmt.Return unauthorized).
Proof. intros. use_reach. reflexivity. Qed.

Lemma stops_at_timeout_hook f b :
  authenticated svc req f b -> simulate_timeout req = true ->
  uploadInvoice svc req = ([authenticate_call b], Stmt.Return server_timeout).
Proof. intros. use_reach. reflexivity. Qed.

Lemma stops_when_format_rejects f b e :
  reaches_format svc req f b ->
  validatePDF svc (buffer f) (mimetype f) (originalname f) = Js.Rejected e ->
  uploadInvoice svc req = (calls_to_format f b, Stmt.Return not_pdf).
Proof. intros. use_reach. reflexivity. Qed.

Lemma stops_when_detector_rejects f b e :
  reaches_encryption svc req f b ->
  isPdfEncrypted svc (buffer f) = Js.Rejected e ->
  uploadInvoice svc req = (calls_to_encryption f b, Stmt.Return internal_server_error).
Proof. intros. use_reach. reflexivity. Qed.

Lemma stops_when_encrypted f b v :
  reaches_encryption svc req f b ->
  isPdfEncrypted svc (buffer f) = Js.Resolved v -> Js.truthy v = true ->
  uploadInvoice svc req = (calls_to_encryption f b, Stmt.Return pdf_encrypted).
Proof. intros. use_reach. reflexivity. Qed.

Lemma stops_when_integrity_rejects f b e :
  reaches_integrity svc req f b ->
  checkPdfIntegrity svc (buffer f) = Js.Rejected e ->
  uploadInvoice svc req = (calls_to_integrity f b, Stmt.Return internal_server_error).
Proof. intros. use_reach. reflexivity. Qed.

Lemma stops_when_corrupt f b v :
  reaches_integrity svc req f b ->
  checkPdfIntegrity svc (buffer f) = Js.Resolved v -> Js.truthy v = false ->
  uploadInvoice svc req = (calls_to_integrity f b, Stmt.Return pdf_invalid).
Proof. intros. use_reach. reflexivity. Qed.

Lemma stops_when_size_rejects f b e :
  reaches_size svc req f b ->
  validateSizeFile svc (buffer f) = Js.Rejected e ->
  uploadInvoice svc req = (calls_to_size f b, Stmt.Return size_exceeded).
Proof. intros. use_reach. reflexivity. Qed.

Lemma stops_when_upload_rejects f b e :
  reaches_upload svc req f b ->
  uploadInvoiceService svc f = Js.Rejected e ->
  uploadInvoice svc req = (calls_to_upload f b, Stmt.Return internal_server_error).
Proof. intros. use_reach. reflexivity. Qed.

Lemma ends_with_upload f b result :
  reaches_upload svc req f b ->
  uploadInvoiceService svc f = Js.Resolved result ->
  uploadInvoice svc req = (calls_to_upload f b, Stmt.Return (mkResponse 501 result)).
Proof. intros. use_reach. reflexivity. Qed.

End Branches.

(** ** Order of the stages *)

(** Case analysis on everything the handler branches on, in program order. *)
#[local] Ltac by_cases svc req :=
  destruct (file req) as [f|]; cbn;
  [ destruct (body req) as [b|]; cbn;
    [ destruct (authenticate svc (Js.get "client_id" b) (Js.get "client_secret" b))
        as [isAuthorized|authError]; cbn;
      [ destruct (Js.truthy isAuthorized); cbn;
        [ destruct (Js.strict_eq_str (Js.get "simulateTimeout" (query req)) "true"); cbn;
          [ | destruct (validatePDF svc (buffer f) (mimetype f) (originalname f))
                as [?|?]; cbn;
              [ destruct (isPdfEncrypted svc (buffer f)) as [isEncrypted|?]; cbn;
                [ destruct (Js.truthy isEncrypted); cbn;
                  [ | destruct (checkPdfIntegrity svc (buffer f)) as [isValidPdf|?]; cbn;
                      [ destruct (Js.truthy isValidPdf); cbn;
                        [ destruct (validateSizeFile svc (buffer f)) as [?|?]; cbn;
                          [ destruct (uploadInvoiceService svc f) as [result|?]; cbn | ]
                        | ]
                      | ] ]
                | ]
              | ] ]
        | ]
      | ]
    | ]
  | ].

#[local] Ltac break_matches :=
  repeat match goal with
         | |- context [match ?x with _ => _ end] => destruct x
         end.

(** Case analysis on the awaited outcomes and on the tested booleans that
    are left in the goal. *)
#[local] Ltac break_outcomes :=
  repeat (match goal with
          | |- context [match ?x with Js.Resolved _ => _ | Js.Rejected _ => _ end] =>
              destruct x
          | |- context [Js.truthy ?v] => destruct (Js.truthy v)
          end; cbn).

#[local] Ltac prefix_of_call_order :=
  first [ exists 0%nat; reflexivity | exists 1%nat; reflexivity
        | exists 2%nat; reflexivity | exists 3%nat; reflexivity
        | exists 4%nat; reflexivity | exists 5%nat; reflexivity
        | exists 6%nat; reflexivity ].

(** C1. Every request goes through the stages in the order file presence,
    authentication, timeout hook, format validation, encryption detection,
    integrity check, size validation, upload delegation: the handler always
    returns a response, and its calls and its response are those of running
    the stages of [pipeline_order] one after the other up to the first that
    stops; the collaborators it called are an initial segment of
    [call_order], so no stage after the stopping one was invoked. *)
Theorem uploadInvoice_runs_stages_in_order :
  forall (svc : Services) (req : Request),
  exists (tr : list Call) (r : Response),
    uploadInvoice svc req = (tr, Stmt.Return r) /\
    first_stop svc req pipeline_order = (tr, Some r) /\
    (exists n : nat, map collaborator_of tr = firstn n call_order) /\
    (forall s tr' r', stage_run svc req s = (tr', Stops r') ->
                      status r' = stage_status s \/ status r' = 500%Z).
Proof.
  intros svc req.
  assert (Hstatus : forall s tr' r', stage_run svc req s = (tr', Stops r') ->
                                     status r' = stage_status s \/ status r' = 500%Z).
  { intros s tr' r'. unfold stage_run, on_file.
    destruct s; break_matches; intros H; inversion H; subst; cbn; auto. }
  assert (Hrun : exists tr r,
             uploadInvoice svc req = (tr, Stmt.Return r) /\
             first_stop svc req pipeline_order = (tr, Some r) /\
             exists n : nat, map collaborator_of tr = firstn n call_order).
  { unfold pipeline_order, first_stop, stage_run, on_file.
    unfold_handler.
    by_cases svc req;
      (eexists; eexists; split; [reflexivity | split; [reflexivity | prefix_of_call_order]]). }
  destruct Hrun as (tr & r & Hcode & Hstages & Hprefix).
  exists tr, r. auto.
Qed.

(** ** Faults *)

Lemma try_block_throw_is_caught svc req e :
  snd (uploadInvoice_try svc req) = Stmt.Throw e ->
  uploadInvoice svc req =
    (fst (uploadInvoice_try svc req), Stmt.Return internal_server_error).
Proof.
  unfold uploadInvoice, Stmt.try_catch.
  destruct (uploadInvoice_try svc req) as [tr c]; cbn.
  intros ->. cbn. now rewrite app_nil_r.
Qed.

(** Case analysis on a pair of outcomes that settle alike; the case where
    both reject is closed when the handler answers at once. *)
#[local] Ltac settle_both H :=
  match type of H with
  | match ?o with _ => _ end =>
      destruct o as [?a|?e];
      match type of H with
      | match ?o' with _ => _ end => destruct o' as [?a|?e]
      end
  end;
  try contradiction; subst; cbn; [ | try reflexivity ].

#[local] Ltac on_truthy :=
  match goal with
  | |- context [Js.truthy ?v] => destruct (Js.truthy v); cbn
  end.

(** The response and the calls do not depend on what a rejection carries. *)
Lemma fault_detail_is_not_observable svc svc' req :
  same_up_to_fault_detail svc svc' ->
  uploadInvoice svc' req = uploadInvoice svc req.
Proof.
  intros [Ha Hv He Hi Hz Hu].
  unfold_handler.
  destruct (file req) as [f|]; cbn; [|reflexivity].
  destruct (body req) as [b|]; cbn; [|reflexivity].
  specialize (Ha (Js.get "client_id" b) (Js.get "client_secret" b)).
  specialize (Hv (buffer f) (mimetype f) (originalname f)).
  specialize (He (buffer f)). specialize (Hi (buffer f)).
  specialize (Hz (buffer f)). specialize (Hu f).
  unfold same_settlement in *.
  settle_both Ha. on_truthy; [|reflexivity].
  destruct (Js.strict_eq_str (Js.get "simulateTimeout" (query req)) "true");
    cbn; [reflexivity|].
  settle_both Hv.
  settle_both He. on_truthy; [reflexivity|].
  settle_both Hi. on_truthy; [|reflexivity].
  settle_both Hz.
  settle_both Hu. reflexivity.
Qed.

(** ** Authentication *)

(** C7. With a file attached and the credentials read from the body, a
    falsy answer of the authenticator ends the request with 401
    Unauthorized, and a rejection of its promise ends it with status 500
    and a fixed body, whatever the rejection carried; authenticate is the
    only collaborator called in both cases. *)
Theorem uploadInvoice_authentication_outcomes :
  forall (svc : Services) (req : Request) (f : File) (b : list (string * Js.Value)),
    file req = Some f ->
    body req = Some b ->
    (forall v, authenticate_outcome svc b = Js.Resolved v -> Js.truthy v = false ->
       uploadInvoice svc req =
         ([authenticate_call b], Stmt.Return (mkResponse 401 (message "Unauthorized")))) /\
    (forall e, authenticate_outcome svc b = Js.Rejected e ->
       uploadInvoice svc req =
         ([authenticate_call b], Stmt.Return (mkResponse 500 (message "Internal Server Error")))).
Proof.
  intros svc req f b Hf Hb. split.
  - intros v Hv Ht. exact (stops_when_unauthorized svc req f b v Hf Hb Hv Ht).
  - intros e He. exact (stops_when_authenticate_rejects svc req f b e Hf Hb He).
Qed.

Lemma uploadInvoice_authentication_outcomes_witness :
  uploadInvoice Sample.services Sample.bad_credentials_request =
    ([CallAuthenticate (Js.Str "client") (Js.Str "guess")], Stmt.Return unauthorized) /\
  uploadInvoice Sample.auth_down Sample.good_request =
    ([CallAuthenticate (Js.Str "client") (Js.Str "secret")], Stmt.Return auth_internal_error).
Proof.
  split.
  - apply (proj1 (uploadInvoice_authentication_outcomes
                    Sample.services Sample.bad_credentials_request
                    Sample.pdf_file Sample.bad_body eq_refl eq_refl)
             (Js.Bool false)); reflexivity.
  - apply (proj2 (uploadInvoice_authentication_outcomes
                    Sample.auth_down Sample.good_request
                    Sample.pdf_file Sample.good_body eq_refl eq_refl)
             Sample.boom); reflexivity.
Defined.

(** ** The simulated timeout *)

Lemma strict_eq_str_true v s :
  Js.strict_eq_str v s = true <-> v = Js.Str s.
Proof.
  destruct v; cbn; split; intros H; try discriminate.
  - apply String.eqb_eq in H. now subst.
  - inversion H. apply String.eqb_refl.
Qed.

Lemma strict_eq_str_false v s :
  Js.strict_eq_str v s = false <-> v <> Js.Str s.
Proof.
  rewrite <- strict_eq_str_true. destruct (Js.strict_eq_str v s); split; congruence.
Qed.

Lemma proceeds_to_format_validation svc req f b :
  reaches_format svc req f b ->
  exists rest,
    fst (uploadInvoice svc req) =
      authenticate_call b :: CallValidatePDF (buffer f) (mimetype f) (originalname f) :: rest.
Proof.
  intros H. use_reach. break_outcomes; eexists; reflexivity.
Qed.

(** C8. With a file attached, credentials the authenticator accepts and
    [simulateTimeout=true] in the query, the handler answers 504 "Server
    timeout during upload", and the authenticator is the only collaborator
    it has called: none of validatePDF, isPdfEncrypted, checkPdfIntegrity,
    validateSizeFile or the upload runs. *)
Theorem simulateTimeout_skips_validators :
  forall (svc : Services) (req : Request) (f : File) (b : list (string * Js.Value)),
    authenticated svc req f b ->
    Js.get "simulateTimeout" (query req) = Js.Str "true" ->
    uploadInvoice svc req =
      ([authenticate_call b],
       Stmt.Return (mkResponse 504 (message "Server timeout during upload"))) /\
    (forall c, In c (fst (uploadInvoice svc req)) -> collaborator_of c = KAuthenticate).
Proof.
  intros svc req f b Ha Hq.
  assert (Hrun : uploadInvoice svc req = ([authenticate_call b], Stmt.Return server_timeout)).
  { apply (stops_at_timeout_hook svc req f b Ha).
    unfold simulate_timeout. now apply strict_eq_str_true. }
  split; [exact Hrun|].
  rewrite Hrun. cbn. intros c [<-|[]]. reflexivity.
Qed.

Lemma simulateTimeout_skips_validators_witness :
  uploadInvoice Sample.services Sample.timeout_request =
    ([CallAuthenticate (Js.Str "client") (Js.Str "secret")],
     Stmt.Return (mkResponse 504 (message "Server timeout during upload"))).
Proof.
  apply (simulateTimeout_skips_validators
           Sample.services Sample.timeout_request Sample.pdf_file Sample.good_body).
  - unfold authenticated. split; [reflexivity|]. split; [reflexivity|].
    exists (Js.Bool true). split; reflexivity.
  - reflexivity.
Defined.

(** C10. For a request that has passed authentication, the timeout hook
    ends the request if and only if [req.query.simulateTimeout] is the
    string "true"; with any other value the next thing the handler does is
    call validatePDF.  "TRUE", "1", the boolean [true] and a missing
    parameter are not the string "true". *)
Theorem simulateTimeout_fires_iff_string_true :
  forall (svc : Services) (req : Request) (f : File) (b : list (string * Js.Value)),
    authenticated svc req f b ->
    (simulate_timeout req = true <-> Js.get "simulateTimeout" (query req) = Js.Str "true") /\
    (uploadInvoice svc req = ([authenticate_call b], Stmt.Return server_timeout)
       <-> Js.get "simulateTimeout" (query req) = Js.Str "true") /\
    (Js.get "simulateTimeout" (query req) <> Js.Str "true" ->
       exists rest,
         fst (uploadInvoice svc req) =
           authenticate_call b
             :: CallValidatePDF (buffer f) (mimetype f) (originalname f) :: rest) /\
    Forall (fun v => Js.strict_eq_str v "true" = false)
           [Js.Str "TRUE"; Js.Str "1"; Js.Bool true; Js.Undefined].
Proof.
  intros svc req f b Ha.
  assert (Hgo : Js.get "simulateTimeout" (query req) <> Js.Str "true" ->
                exists rest,
                  fst (uploadInvoice svc req) =
                    authenticate_call b
                      :: CallValidatePDF (buffer f) (mimetype f) (originalname f) :: rest).
  { intros Hq. apply proceeds_to_format_validation. split; [exact Ha|].
    unfold simulate_timeout. now apply strict_eq_str_false. }
  split; [|split; [|split]].
  - apply strict_eq_str_true.
  - split.
    + intros Hrun.
      destruct (Js.strict_eq_str (Js.get "simulateTimeout" (query req)) "true") eqn:E.
      * now apply strict_eq_str_true.
      * apply strict_eq_str_false in E. destruct (Hgo E) as [rest Hrest].
        rewrite Hrun in Hrest. discriminate.
    + intros Hq. apply (stops_at_timeout_hook svc req f b Ha).
      unfold simulate_timeout. now apply strict_eq_str_true.
  - exact Hgo.
  - repeat constructor.
Qed.

Lemma simulateTimeout_fires_iff_string_true_witness :
  (exists rest,
     fst (uploadInvoice Sample.services
            (Sample.request_with [("simulateTimeout", Js.Str "TRUE")])) =
       CallAuthenticate (Js.Str "client") (Js.Str "secret")
         :: CallValidatePDF InvoiceServices.unencryptedPdfBuffer
              "application/pdf" "invoice.pdf" :: rest) /\
  (exists rest,
     fst (uploadInvoice Sample.services
            (Sample.request_with [("simulateTimeout", Js.Bool true)])) =
       CallAuthenticate (Js.Str "client") (Js.Str "secret")
         :: CallValidatePDF InvoiceServices.unencryptedPdfBuffer
              "application/pdf" "invoice.pdf" :: rest).
Proof.
  split.
  - apply (proj1 (proj2 (proj2 (simulateTimeout_fires_iff_string_true
             Sample.services (Sample.request_with [("simulateTimeout", Js.Str "TRUE")])
             Sample.pdf_file Sample.good_body
             (conj eq_refl (conj eq_refl
                (ex_intro _ (Js.Bool true) (conj eq_refl eq_refl)))))))).
    cbn. discriminate.
  - apply (proj1 (proj2 (proj2 (simulateTimeout_fires_iff_string_true
             Sample.services (Sample.request_with [("simulateTimeout", Js.Bool true)])
             Sample.pdf_file Sample.good_body
             (conj eq_refl (conj eq_refl
                (ex_intro _ (Js.Bool true) (conj eq_refl eq_refl)))))))).
    cbn. discriminate.
Defined.

(** ** The route *)

(** With the file-parsing middleware in front, a multipart message with a
    sound PDF and good credentials is carried to the upload call. *)
Lemma middleware_route_reaches_upload :
  dispatch Sample.services Sample.multipart_message post_upload_with_middleware
           (express_request Sample.multipart_message)
  = (calls_to_upload Sample.pdf_file Sample.good_body,
     Some (mkResponse 501 (message "Invoice upload service called"))).
Proof. vm_compute. reflexivity. Qed.

(** C9. [POST /upload] is registered with [uploadInvoice] as its only
    handler.  Express builds the request without a [file] property and no
    handler of the route sets it, so whatever the message carries (a
    multipart file included) and whatever the collaborators do, the answer
    is 400 "No file uploaded", no collaborator is called, and no answer of
    the route has status 501. *)
Theorem route_post_upload_never_sees_a_file :
  forall (svc : Services) (h : HttpRequest),
    post_upload = [UploadInvoice] /\
    file (express_request h) = None /\
    route_post_upload svc h = ([], Some (mkResponse 400 (message "No file uploaded"))) /\
    (forall tr r, route_post_upload svc h = (tr, Some r) -> status r <> 501%Z).
Proof.
  intros svc h.
  assert (Hrun : route_post_upload svc h = ([], Some no_file_uploaded)).
  { unfold route_post_upload, post_upload, dispatch.
    now rewrite (stops_without_file svc (express_request h) eq_refl). }
  repeat split; try exact Hrun.
  intros tr r H. rewrite Hrun in H. inversion H. subst. cbn. discriminate.
Qed.

(** ** The validators *)

Section Validators.

Import InvoiceServices.

Lemma extension_examples :
  extension "valid.pdf" = ".pdf" /\ extension "document.txt" = ".txt" /\
  extension "archive.tar.pdf" = ".pdf" /\ extension "README" = "" /\
  extension "scan.PDF" = ".PDF".
Proof. repeat split. Qed.

(** The four format cases of the test suite. *)
Lemma validatePDF_test_cases :
  validatePDF validPdfBuffer "application/pdf" "valid.pdf" = Js.Resolved (Js.Bool true) /\
  validatePDF validPdfBuffer "image/png" "valid.png" = Js.Rejected (Js.Err "Invalid MIME type") /\
  validatePDF validPdfBuffer "application/pdf" "document.txt"
    = Js.Rejected (Js.Err "Invalid file extension") /\
  validatePDF invalidPdfBuffer "application/pdf" "invalid.pdf"
    = Js.Rejected (Js.Err "Invalid PDF file").
Proof. repeat split. Qed.

Lemma validateFormat_wrong_mime content mime name :
  mime <> "application/pdf" ->
  validateFormat content mime name = ([MimeCheck], Fails InvalidMimeType).
Proof.
  intros H. unfold validateFormat.
  apply String.eqb_neq in H. now rewrite H.
Qed.

Lemma validateFormat_wrong_extension content name :
  extension name <> ".pdf" ->
  validateFormat content "application/pdf" name
    = ([MimeCheck; ExtensionCheck], Fails InvalidExtension).
Proof.
  intros H. unfold validateFormat.
  apply String.eqb_neq in H. now rewrite H.
Qed.

Lemma validateFormat_content content name :
  extension name = ".pdf" ->
  validateFormat content "application/pdf" name
    = ([MimeCheck; ExtensionCheck; ContentCheck],
       if has_pdf_signature content then Succeeds else Fails InvalidPdfContent).
Proof.
  intros H. unfold validateFormat. rewrite H.
  destruct (has_pdf_signature content); reflexivity.
Qed.

(** C3, as stated, fails: content that lacks the signature and is declared
    with a wrong MIME type is reported as InvalidMimeType. *)
Lemma validateFormat_not_always_InvalidPdfContent :
  ~ (forall (content : Buffer) (mime name : string),
       has_pdf_signature content = false ->
       snd (validateFormat content mime name) = Fails InvalidPdfContent).
Proof.
  intros H.
  specialize (H invalidPdfBuffer "image/png" "invalid.png" eq_refl).
  vm_compute in H. discriminate.
Qed.

(** C3, amended. Content that does not start with [%PDF-] is rejected for
    every declared MIME type and every file name; the failure is
    InvalidPdfContent when the MIME type is [application/pdf] and the
    extension is [.pdf], InvalidMimeType when the MIME type is not
    [application/pdf], and InvalidExtension when the MIME type is right and
    the extension is not [.pdf]. *)
Theorem validateFormat_rejects_content_without_signature :
  forall (content : Buffer) (mime name : string),
    has_pdf_signature content = false ->
    (exists k, snd (validateFormat content mime name) = Fails k) /\
    (mime = "application/pdf" -> extension name = ".pdf" ->
       snd (validateFormat content mime name) = Fails InvalidPdfContent) /\
    (mime <> "application/pdf" ->
       snd (validateFormat content mime name) = Fails InvalidMimeType) /\
    (mime = "application/pdf" -> extension name <> ".pdf" ->
       snd (validateFormat content mime name) = Fails InvalidExtension).
Proof.
  intros content mime name Hsig. repeat split.
  - unfold validateFormat.
    destruct (mime =? "application/pdf"), (extension name =? ".pdf");
      try rewrite Hsig; eexists; reflexivity.
  - intros -> Hext. rewrite (validateFormat_content content name Hext).
    now rewrite Hsig.
  - intros Hmime. now rewrite (validateFormat_wrong_mime content mime name Hmime).
  - intros -> Hext. now rewrite (validateFormat_wrong_extension content name Hext).
Qed.

Lemma validateFormat_rejects_content_without_signature_witness :
  has_pdf_signature invalidPdfBuffer = false /\
  snd (validateFormat invalidPdfBuffer "application/pdf" "invalid.pdf")
    = Fails InvalidPdfContent /\
  snd (validateFormat invalidPdfBuffer "image/png" "invalid.png")
    = Fails InvalidMimeType.
Proof.
  split; [reflexivity|]. split.
  - apply (validateFormat_rejects_content_without_signature
             invalidPdfBuffer "application/pdf" "invalid.pdf" eq_refl); reflexivity.
  - apply (validateFormat_rejects_content_without_signature
             invalidPdfBuffer "image/png" "invalid.png" eq_refl). discriminate.
Defined.

(** C4. The format validator looks at the MIME type, then at the
    extension, then at the first bytes.  A wrong MIME type is reported as
    InvalidMimeType with only the MIME check evaluated; with the right MIME
    type a wrong extension is reported as InvalidExtension with the content
    check not evaluated; with both right the content check decides between
    InvalidPdfContent and success. *)
Theorem validateFormat_checks_in_order :
  forall (content : Buffer) (mime name : string),
    (mime <> "application/pdf" ->
       validateFormat content mime name = ([MimeCheck], Fails InvalidMimeType)) /\
    (mime = "application/pdf" -> extension name <> ".pdf" ->
       validateFormat content mime name
         = ([MimeCheck; ExtensionCheck], Fails InvalidExtension)) /\
    (mime = "application/pdf" -> extension name = ".pdf" ->
       has_pdf_signature content = false ->
       validateFormat content mime name
         = ([MimeCheck; ExtensionCheck; ContentCheck], Fails InvalidPdfContent)) /\
    (mime = "application/pdf" -> extension name = ".pdf" ->
       has_pdf_signature content = true ->
       validateFormat content mime name
         = ([MimeCheck; ExtensionCheck; ContentCheck], Succeeds)).
Proof.
  intros content mime name. repeat split.
  - apply validateFormat_wrong_mime.
  - intros ->. apply validateFormat_wrong_extension.
  - intros -> Hext Hsig. rewrite (validateFormat_content content name Hext).
    now rewrite Hsig.
  - intros -> Hext Hsig. rewrite (validateFormat_content content name Hext).
    now rewrite Hsig.
Qed.

Lemma validateFormat_checks_in_order_witness :
  validateFormat invalidPdfBuffer "image/png" "document.txt"
    = ([MimeCheck], Fails InvalidMimeType) /\
  validateFormat invalidPdfBuffer "application/pdf" "document.txt"
    = ([MimeCheck; ExtensionCheck], Fails InvalidExtension) /\
  validateFormat invalidPdfBuffer "application/pdf" "invalid.pdf"
    = ([MimeCheck; ExtensionCheck; ContentCheck], Fails InvalidPdfContent) /\
  validateFormat validPdfBuffer "application/pdf" "valid.pdf"
    = ([MimeCheck; ExtensionCheck; ContentCheck], Succeeds).
Proof.
  split; [|split; [|split]].
  - apply (validateFormat_checks_in_order invalidPdfBuffer "image/png" "document.txt").
    discriminate.
  - apply (validateFormat_checks_in_order invalidPdfBuffer "application/pdf" "document.txt").
    + reflexivity.
    + cbn. discriminate.
  - apply (validateFormat_checks_in_order invalidPdfBuffer "application/pdf" "invalid.pdf");
      reflexivity.
  - apply (validateFormat_checks_in_order validPdfBuffer "application/pdf" "valid.pdf");
      reflexivity.
Defined.

(** *** Size *)

Lemma alloc_from_length size fill rest :
  List.length (alloc_from size fill rest) = size.
Proof.
  revert rest. induction size as [|n IH]; intros rest; cbn [alloc_from].
  - reflexivity.
  - destruct rest as [|c rest']; [destruct fill as [|c fill']|];
      cbn [List.length]; now rewrite IH.
Qed.

Lemma byteLength_sizedPdfBuffer size :
  byteLength (sizedPdfBuffer size) = size.
Proof.
  unfold byteLength, sizedPdfBuffer, Buffer_alloc.
  rewrite alloc_from_length. apply N2Nat.id.
Qed.

Lemma validateSize_within content :
  (byteLength content <= MAX_FILE_SIZE)%N -> validateSize content = Succeeds.
Proof.
  intros H. unfold validateSize. apply N.leb_le in H. now rewrite H.
Qed.

Lemma validateSize_beyond content :
  (MAX_FILE_SIZE < byteLength content)%N -> validateSize content = Fails FileTooLarge.
Proof.
  intros H. unfold validateSize. apply N.leb_gt in H. now rewrite H.
Qed.

(** The three size cases of the test suite: 10 MiB and exactly 20 MiB are
    accepted, 21 MiB is rejected. *)
Lemma validateSizeFile_test_cases :
  validateSizeFile (sizedPdfBuffer (10 * 1024 * 1024)) = Js.Resolved (Js.Bool true) /\
  validateSizeFile (sizedPdfBuffer (21 * 1024 * 1024))
    = Js.Rejected (Js.Err "File exceeds maximum allowed size of 20MB") /\
  validateSizeFile (sizedPdfBuffer (20 * 1024 * 1024)) = Js.Resolved (Js.Bool true).
Proof.
  unfold validateSizeFile. split; [|split].
  - rewrite validateSize_within; [reflexivity|].
    rewrite byteLength_sizedPdfBuffer. unfold MAX_FILE_SIZE. lia.
  - rewrite validateSize_beyond; [reflexivity|].
    rewrite byteLength_sizedPdfBuffer. unfold MAX_FILE_SIZE. lia.
  - rewrite validateSize_within; [reflexivity|].
    rewrite byteLength_sizedPdfBuffer. unfold MAX_FILE_SIZE. lia.
Qed.

(** C5. The size validator accepts every content of at most
    20 x 1024 x 1024 bytes, that length included, and rejects every longer
    content as FileTooLarge. *)
Theorem validateSize_bound_is_inclusive :
  forall content : Buffer,
    ((byteLength content <= 20 * 1024 * 1024)%N ->
       validateSize content = Succeeds /\
       validateSizeFile content = Js.Resolved (Js.Bool true)) /\
    ((byteLength content = 20 * 1024 * 1024)%N -> validateSize content = Succeeds) /\
    ((20 * 1024 * 1024 < byteLength content)%N ->
       validateSize content = Fails FileTooLarge /\
       validateSizeFile content
         = Js.Rejected (Js.Err "File exceeds maximum allowed size of 20MB")).
Proof.
  intros content. repeat split.
  - now apply validateSize_within.
  - unfold validateSizeFile. now rewrite validateSize_within.
  - intros H. apply validateSize_within. rewrite H. apply N.le_refl.
  - now apply validateSize_beyond.
  - unfold validateSizeFile. now rewrite validateSize_beyond.
Qed.

Lemma validateSize_bound_is_inclusive_witness :
  validateSize (sizedPdfBuffer (20 * 1024 * 1024)) = Succeeds /\
  validateSize (sizedPdfBuffer (20 * 1024 * 1024 + 1)) = Fails FileTooLarge /\
  validateSize validPdfBuffer = Succeeds.
Proof.
  split; [|split].
  - apply (validateSize_bound_is_inclusive (sizedPdfBuffer (20 * 1024 * 1024))).
    apply byteLength_sizedPdfBuffer.
  - apply (validateSize_bound_is_inclusive (sizedPdfBuffer (20 * 1024 * 1024 + 1))).
    rewrite byteLength_sizedPdfBuffer. lia.
  - apply (proj1 (validateSize_bound_is_inclusive validPdfBuffer)).
    vm_compute. discriminate.
Defined.

(** *** Encryption *)

Lemma fixtures_start_with_signature :
  has_pdf_signature unencryptedPdfBuffer = true /\
  has_pdf_signature encryptedPdfBuffer = true /\
  byteLength unencryptedPdfBuffer = 319%N /\
  byteLength encryptedPdfBuffer = 476%N.
Proof. vm_compute. repeat split. Qed.

(** On the two fixtures it does not matter whether one marker or both are
    asked for. *)
Lemma fixtures_agree_on_both_readings :
  isEncrypted_both_markers unencryptedPdfBuffer = isEncrypted unencryptedPdfBuffer /\
  isEncrypted_both_markers encryptedPdfBuffer = isEncrypted encryptedPdfBuffer.
Proof. vm_compute. split; reflexivity. Qed.

(** C6. The encryption detector answers false on the minimal unencrypted
    fixture, which holds neither marker, and true on the fixture whose
    trailer has [/Encrypt 4 0 R] and whose object 4 is a [/Filter/Standard]
    dictionary. *)
Theorem isPdfEncrypted_on_fixtures :
  isEncrypted unencryptedPdfBuffer = false /\
  isEncrypted encryptedPdfBuffer = true /\
  isPdfEncrypted unencryptedPdfBuffer = Js.Resolved (Js.Bool false) /\
  isPdfEncrypted encryptedPdfBuffer = Js.Resolved (Js.Bool true) /\
  includes encrypt_marker unencryptedPdfBuffer = false /\
  includes standard_filter_marker unencryptedPdfBuffer = false /\
  includes encrypt_marker encryptedPdfBuffer = true /\
  includes standard_filter_marker encryptedPdfBuffer = true.
Proof. vm_compute. repeat split. Qed.

End Validators.

(** ** The whole pipeline on the sample request *)

Lemma sample_request_reaches_upload :
  uploadInvoice Sample.services Sample.good_request
  = (calls_to_upload Sample.pdf_file Sample.good_body,
     Stmt.Return (mkResponse 501 (message "Invoice upload service called"))).
Proof. vm_compute. reflexivity. Qed.

(** * Further properties of the controller *)

(** ** Every run is one of the thirteen answers *)

Lemma uploadInvoice_answer svc req :
  exists tr r, uploadInvoice svc req = (tr, Stmt.Return r) /\ Answer svc req tr r.
Proof.
  unfold_handler.
  destruct (file req) as [f|] eqn:Hfile; cbn.
  2: { eexists; eexists; split; [reflexivity | now apply NoFile]. }
  destruct (body req) as [b|] eqn:Hbody; cbn.
  2: { eexists; eexists; split; [reflexivity | now apply (NoBody svc req f)]. }
  destruct (authenticate svc (Js.get "client_id" b) (Js.get "client_secret" b))
    as [v|e] eqn:Hauth; cbn.
  2: { eexists; eexists; split; [reflexivity | now apply (AuthenticateFault svc req f b e)]. }
  destruct (Js.truthy v) eqn:Hv; cbn.
  2: { eexists; eexists; split; [reflexivity | now apply (Denied svc req f b v)]. }
  assert (Ha : authenticated svc req f b).
  { split; [assumption|]. split; [assumption|]. now exists v. }
  destruct (Js.strict_eq_str (Js.get "simulateTimeout" (query req)) "true") eqn:Hflag; cbn.
  { eexists; eexists; split; [reflexivity | now apply (TimedOut svc req f b)]. }
  assert (Hf : reaches_format svc req f b) by (split; assumption).
  destruct (validatePDF svc (buffer f) (mimetype f) (originalname f)) as [ok|e] eqn:Hfmt; cbn.
  2: { eexists; eexists; split; [reflexivity | now apply (BadFormat svc req f b e)]. }
  assert (He : reaches_encryption svc req f b) by (split; [assumption | now exists ok]).
  destruct (isPdfEncrypted svc (buffer f)) as [enc|e] eqn:Henc; cbn.
  2: { eexists; eexists; split; [reflexivity | now apply (DetectorFault svc req f b e)]. }
  destruct (Js.truthy enc) eqn:Henct; cbn.
  { eexists; eexists; split; [reflexivity | now apply (Encrypted svc req f b enc)]. }
  assert (Hi : reaches_integrity svc req f b) by (split; [assumption | now exists enc]).
  destruct (checkPdfIntegrity svc (buffer f)) as [valid|e] eqn:Hint; cbn.
  2: { eexists; eexists; split; [reflexivity | now apply (IntegrityFault svc req f b e)]. }
  destruct (Js.truthy valid) eqn:Hvalid; cbn.
  2: { eexists; eexists; split; [reflexivity | now apply (Corrupt svc req f b valid)]. }
  assert (Hs : reaches_size svc req f b) by (split; [assumption | now exists valid]).
  destruct (validateSizeFile svc (buffer f)) as [fits|e] eqn:Hsize; cbn.
  2: { eexists; eexists; split; [reflexivity | now apply (TooLarge svc req f b e)]. }
  assert (Hu : reaches_upload svc req f b) by (split; [assumption | now exists fits]).
  destruct (uploadInvoiceService svc f) as [result|e] eqn:Hup; cbn.
  - eexists; eexists; split; [reflexivity | now apply (Uploaded svc req f b result)].
  - eexists; eexists; split; [reflexivity | now apply (UploadFault svc req f b e)].
Qed.

Lemma run_inversion svc req tr r :
  uploadInvoice svc req = (tr, Stmt.Return r) -> Answer svc req tr r.
Proof.
  intros H. destruct (uploadInvoice_answer svc req) as (tr' & r' & E & A).
  rewrite H in E. now inversion E; subst.
Qed.

Lemma answer_is_run svc req tr r :
  Answer svc req tr r -> uploadInvoice svc req = (tr, Stmt.Return r).
Proof.
  intros A. destruct A.
  - now apply stops_without_file.
  - now apply (stops_without_body svc req f).
  - now apply (stops_when_authenticate_rejects svc req f b e).
  - now apply (stops_when_unauthorized svc req f b v).
  - now apply (stops_at_timeout_hook svc req f b).
  - now apply (stops_when_format_rejects svc req f b e).
  - now apply (stops_when_detector_rejects svc req f b e).
  - now apply (stops_when_encrypted svc req f b v).
  - now apply (stops_when_integrity_rejects svc req f b e).
  - now apply (stops_when_corrupt svc req f b v).
  - now apply (stops_when_size_rejects svc req f b e).
  - now apply (stops_when_upload_rejects svc req f b e).
  - now apply (ends_with_upload svc req f b result).
Qed.

(** Unfolds a reachability fact down to the facts it is made of. *)
Lemma reaches_upload_size svc req f b :
  reaches_upload svc req f b -> reaches_size svc req f b.
Proof. now intros [H _]. Qed.

Lemma reaches_size_integrity svc req f b :
  reaches_size svc req f b -> reaches_integrity svc req f b.
Proof. now intros [H _]. Qed.

Lemma reaches_integrity_encryption svc req f b :
  reaches_integrity svc req f b -> reaches_encryption svc req f b.
Proof. now intros [H _]. Qed.

Lemma reaches_encryption_format svc req f b :
  reaches_encryption svc req f b -> reaches_format svc req f b.
Proof. now intros [H _]. Qed.

Lemma reaches_format_authenticated svc req f b :
  reaches_format svc req f b -> authenticated svc req f b.
Proof. now intros [H _]. Qed.

Lemma authenticated_file_body svc req f b :
  authenticated svc req f b -> file req = Some f /\ body req = Some b.
Proof. intros (Hf & Hb & _). now split. Qed.

Create HintDb reach.

#[local] Hint Resolve reaches_upload_size reaches_size_integrity
  reaches_integrity_encryption reaches_encryption_format
  reaches_format_authenticated : reach.

Lemma status_of_answer svc req z :
  status_of svc req = Some z <-> exists tr r, Answer svc req tr r /\ status r = z.
Proof.
  unfold status_of.
  destruct (uploadInvoice_answer svc req) as (tr & r & E & A).
  rewrite E; cbn. split.
  - intros [= <-]. eauto.
  - intros (tr' & r' & A' & <-). apply answer_is_run in A'.
    rewrite E in A'. now inversion A'.
Qed.

(** Goes through the thirteen answers and drops those whose status is not
    the one in hand. *)
#[local] Ltac by_answer H :=
  apply status_of_answer in H;
  destruct H as (?tr & ?r & H & ?Hstatus);
  destruct H; cbn in *; try discriminate.

(** ** What each status tells the caller *)

(** X1. The answer has status 501 exactly when the request had an
    attachment and a body, the authenticator accepted, the timeout flag was
    off, validatePDF resolved, the detector answered falsy, the integrity
    checker answered truthy, validateSizeFile resolved and the upload call
    resolved; the six collaborators were then each called once, in order. *)
Theorem status_501_iff_every_stage_passed :
  forall (svc : Services) (req : Request),
    (status_of svc req = Some 501%Z <->
       exists f b result,
         reaches_upload svc req f b /\ uploadInvoiceService svc f = Js.Resolved result) /\
    (status_of svc req = Some 501%Z ->
       map collaborator_of (fst (uploadInvoice svc req)) = call_order).
Proof.
  intros svc req. split; [split|].
  - intros H. by_answer H. eauto.
  - intros (f & b & result & Hr & Hu). apply status_of_answer.
    exists (calls_to_upload f b), (mkResponse 501 result).
    split; [now apply (Uploaded svc req f b result) | reflexivity].
  - intros H. by_answer H.
    now rewrite (ends_with_upload svc req f b result).
Qed.

Lemma status_501_iff_every_stage_passed_witness :
  exists f b result,
    reaches_upload Sample.services Sample.good_request f b /\
    uploadInvoiceService Sample.services f = Js.Resolved result.
Proof.
  apply (proj1 (proj1 (status_501_iff_every_stage_passed
                         Sample.services Sample.good_request))).
  reflexivity.
Defined.

(** X2. The answer has status 504 exactly when the authenticator accepted
    the credentials and [simulateTimeout] is the string "true": the hook
    cannot be reached without an attachment or with refused credentials. *)
Theorem status_504_iff_authenticated_and_flag :
  forall (svc : Services) (req : Request),
    status_of svc req = Some 504%Z <->
    exists f b,
      authenticated svc req f b /\
      Js.get "simulateTimeout" (query req) = Js.Str "true".
Proof.
  intros svc req. split.
  - intros H. by_answer H. exists f, b. split; [assumption|].
    now apply strict_eq_str_true.
  - intros (f & b & Ha & Hq). apply status_of_answer.
    exists [authenticate_call b], server_timeout. split; [|reflexivity].
    apply (TimedOut svc req f b Ha). unfold simulate_timeout.
    now apply strict_eq_str_true.
Qed.

Lemma status_504_iff_authenticated_and_flag_witness :
  status_of Sample.services Cases.no_file_request = Some 400%Z /\
  ~ exists f b, authenticated Sample.services Cases.no_file_request f b /\
      Js.get "simulateTimeout" (query Cases.no_file_request) = Js.Str "true".
Proof.
  split; [reflexivity|].
  intros H.
  apply (proj2 (status_504_iff_authenticated_and_flag
                  Sample.services Cases.no_file_request)) in H.
  discriminate H.
Defined.

(** X3. The answer has status 401 exactly when there is an attachment and
    a body and the authenticator resolved to a falsy value. *)
Theorem status_401_iff_authenticator_refuses :
  forall (svc : Services) (req : Request),
    status_of svc req = Some 401%Z <->
    exists f b v,
      file req = Some f /\ body req = Some b /\
      authenticate_outcome svc b = Js.Resolved v /\ Js.truthy v = false.
Proof.
  intros svc req. split.
  - intros H. by_answer H. exists f, b, v. auto.
  - intros (f & b & v & Hf & Hb & Hv & Ht). apply status_of_answer.
    exists [authenticate_call b], unauthorized. split; [|reflexivity].
    now apply (Denied svc req f b v).
Qed.

Lemma status_401_iff_authenticator_refuses_witness :
  exists f b v,
    file Sample.bad_credentials_request = Some f /\
    body Sample.bad_credentials_request = Some b /\
    authenticate_outcome Sample.services b = Js.Resolved v /\ Js.truthy v = false.
Proof.
  apply (proj1 (status_401_iff_authenticator_refuses
                  Sample.services Sample.bad_credentials_request)).
  reflexivity.
Defined.

(** X4. The answer has status 415 exactly when the request got as far as
    validatePDF and its promise rejected, whatever the rejection was. *)
Theorem status_415_iff_validatePDF_rejects :
  forall (svc : Services) (req : Request),
    status_of svc req = Some 415%Z <->
    exists f b e,
      reaches_format svc req f b /\
      validatePDF svc (buffer f) (mimetype f) (originalname f) = Js.Rejected e.
Proof.
  intros svc req. split.
  - intros H. by_answer H. eauto.
  - intros (f & b & e & Hr & He). apply status_of_answer.
    exists (calls_to_format f b), not_pdf. split; [|reflexivity].
    now apply (BadFormat svc req f b e).
Qed.

Lemma status_415_iff_validatePDF_rejects_witness :
  exists f b e,
    reaches_format Sample.services (Cases.request_for Cases.png_file) f b /\
    validatePDF Sample.services (buffer f) (mimetype f) (originalname f) = Js.Rejected e.
Proof.
  apply (proj1 (status_415_iff_validatePDF_rejects
                  Sample.services (Cases.request_for Cases.png_file))).
  reflexivity.
Defined.

(** X5. The answer has status 413 exactly when the request got as far as
    validateSizeFile and its promise rejected.  The size is the last thing
    checked: by then validatePDF, isPdfEncrypted and checkPdfIntegrity have
    all been run on the buffer. *)
Theorem status_413_iff_validateSizeFile_rejects :
  forall (svc : Services) (req : Request),
    (status_of svc req = Some 413%Z <->
       exists f b e,
         reaches_size svc req f b /\ validateSizeFile svc (buffer f) = Js.Rejected e) /\
    (status_of svc req = Some 413%Z ->
       map collaborator_of (fst (uploadInvoice svc req)) =
         [KAuthenticate; KValidatePDF; KIsPdfEncrypted; KCheckPdfIntegrity;
          KValidateSizeFile]).
Proof.
  intros svc req. split; [split|].
  - intros H. by_answer H. eauto.
  - intros (f & b & e & Hr & He). apply status_of_answer.
    exists (calls_to_size f b), size_exceeded. split; [|reflexivity].
    now apply (TooLarge svc req f b e).
  - intros H. by_answer H.
    now rewrite (stops_when_size_rejects svc req f b e).
Qed.

Lemma status_413_iff_validateSizeFile_rejects_witness :
  map collaborator_of (fst (uploadInvoice Cases.small_limit Sample.good_request)) =
    [KAuthenticate; KValidatePDF; KIsPdfEncrypted; KCheckPdfIntegrity; KValidateSizeFile].
Proof.
  apply (proj2 (status_413_iff_validateSizeFile_rejects
                  Cases.small_limit Sample.good_request)).
  reflexivity.
Defined.

(** X6. Status 400 has three causes and no other: no attachment, a detector
    that answered truthy, or an integrity checker that answered falsy.  The
    three are told apart by the message only. *)
Theorem status_400_has_three_causes :
  forall (svc : Services) (req : Request),
    (status_of svc req = Some 400%Z <->
       file req = None \/
       (exists f b v, reaches_encryption svc req f b /\
                      isPdfEncrypted svc (buffer f) = Js.Resolved v /\ Js.truthy v = true) \/
       (exists f b v, reaches_integrity svc req f b /\
                      checkPdfIntegrity svc (buffer f) = Js.Resolved v /\ Js.truthy v = false)) /\
    (forall r, snd (uploadInvoice svc req) = Stmt.Return r -> status r = 400%Z ->
       (file req = None <-> json r = message "No file uploaded")).
Proof.
  intros svc req. split; [split|].
  - intros H. by_answer H.
    + now left.
    + right; left. exists f, b, v. auto.
    + right; right. exists f, b, v. auto.
  - intros [Hf | [(f & b & v & Hr & Hv & Ht) | (f & b & v & Hr & Hv & Ht)]];
      apply status_of_answer.
    + exists [], no_file_uploaded. split; [now apply NoFile | reflexivity].
    + exists (calls_to_encryption f b), pdf_encrypted.
      split; [now apply (Encrypted svc req f b v) | reflexivity].
    + exists (calls_to_integrity f b), pdf_invalid.
      split; [now apply (Corrupt svc req f b v) | reflexivity].
  - intros r Hrun Hs.
    assert (A : Answer svc req (fst (uploadInvoice svc req)) r).
    { apply run_inversion. destruct (uploadInvoice svc req) as [tr c].
      cbn in *. now subst. }
    destruct A; cbn in Hs; try discriminate; cbn; split; try reflexivity;
      try assumption; try discriminate;
      intros Hnone;
      repeat match goal with
             | H : reaches_encryption _ _ _ _ |- _ => apply reaches_encryption_format in H
             | H : reaches_integrity _ _ _ _ |- _ => apply reaches_integrity_encryption in H
             | H : reaches_format _ _ _ _ |- _ => apply reaches_format_authenticated in H
             | H : authenticated _ _ _ _ |- _ => apply authenticated_file_body in H; destruct H
             end;
      congruence.
Qed.

Lemma status_400_has_three_causes_witness :
  status_of Sample.services (Cases.request_for Cases.encrypted_file) = Some 400%Z /\
  status_of Cases.rejects_integrity Sample.good_request = Some 400%Z /\
  json no_file_uploaded <> json pdf_encrypted /\
  (file Cases.no_file_request = None <-> json no_file_uploaded = message "No file uploaded").
Proof.
  split; [reflexivity|]. split; [reflexivity|]. split; [discriminate|].
  apply (proj2 (status_400_has_three_causes Sample.services Cases.no_file_request)
           no_file_uploaded); reflexivity.
Defined.

(** X7. Status 500 has five causes and no other: a request with an
    attachment and no body, or a rejected promise of the authenticator, of
    the detector, of the integrity checker or of the upload call, each one
    reached. *)
Theorem status_500_has_five_causes :
  forall (svc : Services) (req : Request),
    status_of svc req = Some 500%Z <->
    (exists f, file req = Some f /\ body req = None) \/
    (exists f b e, file req = Some f /\ body req = Some b /\
                   authenticate_outcome svc b = Js.Rejected e) \/
    (exists f b e, reaches_encryption svc req f b /\
                   isPdfEncrypted svc (buffer f) = Js.Rejected e) \/
    (exists f b e, reaches_integrity svc req f b /\
                   checkPdfIntegrity svc (buffer f) = Js.Rejected e) \/
    (exists f b e, reaches_upload svc req f b /\
                   uploadInvoiceService svc f = Js.Rejected e).
Proof.
  intros svc req. split.
  - intros H. by_answer H.
    + left. exists f. auto.
    + right; left. exists f, b, e. auto.
    + right; right; left. exists f, b, e. auto.
    + right; right; right; left. exists f, b, e. auto.
    + right; right; right; right. exists f, b, e. auto.
  - intros [(f & Hf & Hb) | [(f & b & e & Hf & Hb & He) | [(f & b & e & Hr & He)
            | [(f & b & e & Hr & He) | (f & b & e & Hr & He)]]]];
      apply status_of_answer.
    + exists [], internal_server_error.
      split; [now apply (NoBody svc req f) | reflexivity].
    + exists [authenticate_call b], auth_internal_error.
      split; [now apply (AuthenticateFault svc req f b e) | reflexivity].
    + exists (calls_to_encryption f b), internal_server_error.
      split; [now apply (DetectorFault svc req f b e) | reflexivity].
    + exists (calls_to_integrity f b), internal_server_error.
      split; [now apply (IntegrityFault svc req f b e) | reflexivity].
    + exists (calls_to_upload f b), internal_server_error.
      split; [now apply (UploadFault svc req f b e) | reflexivity].
Qed.

Lemma status_500_has_five_causes_witness :
  status_of Sample.services Cases.no_body_request = Some 500%Z /\
  status_of Sample.upload_down Sample.good_request = Some 500%Z.
Proof.
  split.
  - apply (proj2 (status_500_has_five_causes Sample.services Cases.no_body_request)).
    left. exists Sample.pdf_file. split; reflexivity.
  - apply (proj2 (status_500_has_five_causes Sample.upload_down Sample.good_request)).
    right; right; right; right.
    exists Sample.pdf_file, Sample.good_body, Sample.boom.
    split; [|reflexivity].
    repeat (split; try reflexivity); eexists; try (split; reflexivity); reflexivity.
Defined.

(** X8. A response the handler sends has one of the statuses 400, 401,
    413, 415, 500, 501, 504, and it is either one of the nine fixed
    responses or status 501 with the value the upload call resolved to. *)
Theorem uploadInvoice_answers_are_fixed_or_upload_result :
  forall (svc : Services) (req : Request) (r : Response),
    snd (uploadInvoice svc req) = Stmt.Return r ->
    In (status r) [400; 401; 413; 415; 500; 501; 504]%Z /\
    (In r fixed_answers \/
     exists f, file req = Some f /\
               uploadInvoiceService svc f = Js.Resolved (json r) /\ status r = 501%Z).
Proof.
  intros svc req r Hrun.
  assert (A : Answer svc req (fst (uploadInvoice svc req)) r).
  { apply run_inversion. destruct (uploadInvoice svc req) as [tr c].
    cbn in *. now subst. }
  destruct A; cbn; try (split; [tauto | left; tauto]).
  assert (Ha : authenticated svc req f b) by auto 10 with reach.
  destruct (authenticated_file_body svc req f b Ha) as [Hf _].
  split; [tauto|]. right. exists f. auto.
Qed.

Lemma uploadInvoice_answers_are_fixed_or_upload_result_witness :
  (In 501%Z [400; 401; 413; 415; 500; 501; 504]%Z /\
   (In (mkResponse 501 (message "Invoice upload service called")) fixed_answers \/
    exists f, file Sample.good_request = Some f /\
              uploadInvoiceService Sample.services f
                = Js.Resolved (message "Invoice upload service called") /\
              501%Z = 501%Z)) /\
  In (status not_pdf) [400; 401; 413; 415; 500; 501; 504]%Z.
Proof.
  split.
  - apply (uploadInvoice_answers_are_fixed_or_upload_result
             Sample.services Sample.good_request
             (mkResponse 501 (message "Invoice upload service called"))).
    reflexivity.
  - apply (uploadInvoice_answers_are_fixed_or_upload_result
             Cases.format_crash Sample.good_request not_pdf).
    reflexivity.
Defined.

(** ** What the handler calls, and with what *)

#[local] Hint Resolve authenticated_file_body : reach.

(** Case analysis on every branch of the handler, for goals about its
    trace. *)
#[local] Ltac every_branch :=
  repeat (match goal with
          | |- context [match ?x with Js.Resolved _ => _ | Js.Rejected _ => _ end] =>
              destruct x
          | |- context [Js.truthy ?v] => destruct (Js.truthy v)
          | |- context [Js.strict_eq_str ?v ?s] => destruct (Js.strict_eq_str v s)
          end; cbn).

(** X9. A collaborator is called only when every stage before it has
    passed: validatePDF only for an authenticated request with the timeout
    flag off, isPdfEncrypted only after validatePDF resolved,
    checkPdfIntegrity only after a falsy answer of the detector,
    validateSizeFile only after a truthy answer of the integrity checker,
    and the upload only after validateSizeFile resolved. *)
Theorem collaborator_called_only_after_earlier_stages :
  forall (svc : Services) (req : Request) (c : Call),
    In c (fst (uploadInvoice svc req)) ->
    exists f b, guard svc req f b (collaborator_of c).
Proof.
  intros svc req c Hin.
  destruct (uploadInvoice_answer svc req) as (tr & r & E & A).
  rewrite E in Hin. cbn [fst] in Hin.
  destruct A;
    unfold calls_to_upload, calls_to_size, calls_to_integrity, calls_to_encryption,
      calls_to_format, authenticate_call in Hin;
    cbn in Hin;
    repeat match goal with
           | H : _ \/ _ |- _ => destruct H as [<-|H]
           | H : False |- _ => destruct H
           end;
    exists f, b; cbn; eauto 10 with reach.
Qed.

Lemma collaborator_called_only_after_earlier_stages_witness :
  exists f b, reaches_upload Sample.services Sample.good_request f b.
Proof.
  apply (collaborator_called_only_after_earlier_stages
           Sample.services Sample.good_request (CallUploadInvoice Sample.pdf_file)).
  vm_compute. tauto.
Defined.

(** X10. Every call is made on the data of the request: authenticate gets
    [client_id] and [client_secret] of the body in that order, validatePDF
    gets the buffer, the MIME type and the original name in that order, the
    other validators get the same buffer, and the upload gets the
    attachment itself. *)
Theorem calls_carry_the_request_data :
  forall (svc : Services) (req : Request) (f : File) (b : list (string * Js.Value)),
    file req = Some f -> body req = Some b ->
    Forall (call_about f b) (fst (uploadInvoice svc req)).
Proof.
  intros svc req f b Hf Hb.
  unfold_handler. rewrite Hf, Hb. cbn.
  every_branch; repeat constructor.
Qed.

Lemma calls_carry_the_request_data_witness :
  Forall (call_about Sample.pdf_file Sample.good_body)
         (fst (uploadInvoice Sample.services Sample.good_request)).
Proof.
  apply (calls_carry_the_request_data Sample.services Sample.good_request);
    reflexivity.
Defined.

(** X11. No collaborator is called twice while one request is handled. *)
Theorem no_collaborator_called_twice :
  forall (svc : Services) (req : Request),
    NoDup (map collaborator_of (fst (uploadInvoice svc req))).
Proof.
  intros svc req. unfold_handler.
  destruct (file req) as [f|]; cbn; [|constructor].
  destruct (body req) as [b|]; cbn; [|constructor].
  every_branch;
    repeat (constructor; [cbn; intuition discriminate|]); constructor.
Qed.

(** X12. The handler reads nothing of the request but the attachment, the
    properties [client_id] and [client_secret] of the body and whether
    [simulateTimeout] is the string "true": two requests that agree on
    these get the same calls and the same answer. *)
Theorem uploadInvoice_reads_only :
  forall (svc : Services) (req req' : Request),
    reads req = reads req' ->
    uploadInvoice svc req = uploadInvoice svc req'.
Proof.
  intros svc req req'. unfold reads, simulate_timeout.
  intros [= Hf Hb Hq].
  unfold_handler. rewrite Hf, Hq.
  destruct (body req) as [b|], (body req') as [b'|]; cbn in Hb; try discriminate.
  - unfold credentials in Hb. injection Hb as Hi Hs.
    cbn. now rewrite Hi, Hs.
  - reflexivity.
Qed.

Lemma uploadInvoice_reads_only_witness :
  uploadInvoice Sample.services Cases.noisy_request
  = uploadInvoice Sample.services Sample.good_request.
Proof.
  apply (uploadInvoice_reads_only Sample.services Cases.noisy_request Sample.good_request).
  reflexivity.
Defined.

Lemma get_absent k props :
  (forall v, ~ In (k, v) props) -> Js.get k props = Js.Undefined.
Proof.
  induction props as [|[k' v'] rest IH]; intros H; cbn.
  - reflexivity.
  - destruct (String.eqb_spec k' k) as [->|_].
    + exfalso. apply (H v'). now left.
    + apply IH. intros v Hin. apply (H v). now right.
Qed.

(** X13. The handler does not check that the credentials are there: when
    the body has neither [client_id] nor [client_secret], authenticate is
    still the first call, with [undefined] for both, and the answer is 401
    exactly when that call resolves to a falsy value. *)
Theorem missing_credentials_are_passed_as_undefined :
  forall (svc : Services) (req : Request) (f : File) (b : list (string * Js.Value)),
    file req = Some f -> body req = Some b ->
    (forall v, ~ In ("client_id", v) b) ->
    (forall v, ~ In ("client_secret", v) b) ->
    (exists rest,
       fst (uploadInvoice svc req) = CallAuthenticate Js.Undefined Js.Undefined :: rest) /\
    (status_of svc req = Some 401%Z <->
       exists v, authenticate svc Js.Undefined Js.Undefined = Js.Resolved v /\
                 Js.truthy v = false).
Proof.
  intros svc req f b Hf Hb Hid Hsecret.
  apply get_absent in Hid. apply get_absent in Hsecret. split.
  - unfold_handler. rewrite Hf, Hb. cbn. rewrite Hid, Hsecret.
    every_branch; eexists; reflexivity.
  - unfold status_of. unfold_handler. rewrite Hf, Hb. cbn. rewrite Hid, Hsecret.
    destruct (authenticate svc Js.Undefined Js.Undefined) as [v|e]; cbn.
    + destruct (Js.truthy v) eqn:Hv; cbn.
      * split; [|intros (v' & [= <-] & Hv'); congruence].
        every_branch; discriminate.
      * split; [|reflexivity]. intros _. now exists v.
    + split; [discriminate|]. intros (v & Hv & _). discriminate.
Qed.

Lemma missing_credentials_are_passed_as_undefined_witness :
  (exists rest,
     fst (uploadInvoice Sample.services Cases.empty_body_request)
       = CallAuthenticate Js.Undefined Js.Undefined :: rest) /\
  status_of Sample.services Cases.empty_body_request = Some 401%Z.
Proof.
  destruct (missing_credentials_are_passed_as_undefined
              Sample.services Cases.empty_body_request Sample.pdf_file []
              eq_refl eq_refl (fun v H => H) (fun v H => H)) as [Hcall Hstatus].
  split; [exact Hcall|].
  apply Hstatus. exists (Js.Bool false). split; reflexivity.
Defined.

(** ** What the handler makes of the collaborators' answers *)

#[local] Ltac verdict_both H :=
  match type of H with
  | match ?o with _ => _ end =>
      destruct o;
      match type of H with
      | match ?o' with _ => _ end => destruct o'
      end
  end;
  try contradiction; cbn; [ | try reflexivity ].

#[local] Ltac same_truthiness H :=
  match type of H with
  | Js.truthy ?v = Js.truthy ?v' => rewrite <- H; destruct (Js.truthy v); cbn
  end.

(** X14. The handler uses the answers of the authenticator, of the
    detector and of the integrity checker only through their truthiness,
    and those of validatePDF and validateSizeFile only through whether the
    promise resolved: collaborators that agree in these respects, and on
    the upload result, give the same calls and the same response.  A
    validator that resolves, be it to [false], passes. *)
Theorem uploadInvoice_depends_on_verdicts_only :
  forall (svc svc' : Services) (req : Request),
    same_verdicts svc svc' ->
    uploadInvoice svc' req = uploadInvoice svc req.
Proof.
  intros svc svc' req [Ha Hv He Hi Hz Hu].
  unfold_handler.
  destruct (file req) as [f|]; cbn; [|reflexivity].
  destruct (body req) as [b|]; cbn; [|reflexivity].
  specialize (Ha (Js.get "client_id" b) (Js.get "client_secret" b)).
  specialize (Hv (buffer f) (mimetype f) (originalname f)).
  specialize (He (buffer f)). specialize (Hi (buffer f)).
  specialize (Hz (buffer f)). specialize (Hu f).
  unfold same_truth, same_pass_fail, same_settlement in *.
  verdict_both Ha. same_truthiness Ha; [|reflexivity].
  destruct (Js.strict_eq_str (Js.get "simulateTimeout" (query req)) "true");
    cbn; [reflexivity|].
  verdict_both Hv.
  verdict_both He. same_truthiness He; [reflexivity|].
  verdict_both Hi. same_truthiness Hi; [|reflexivity].
  verdict_both Hz.
  verdict_both Hu. now subst.
Qed.

Lemma loose_answers_same_verdicts :
  same_verdicts Sample.services Cases.loose_answers.
Proof.
  split; cbn.
  - intros i k. unfold Sample.accepts_client.
    now destruct (Js.strict_eq_str i "client" && Js.strict_eq_str k "secret").
  - intros b m n. unfold InvoiceServices.validatePDF.
    now destruct (snd (InvoiceServices.validateFormat b m n)).
  - intros b. unfold InvoiceServices.isPdfEncrypted.
    now destruct (InvoiceServices.isEncrypted b).
  - intros b. reflexivity.
  - intros b. unfold InvoiceServices.validateSizeFile.
    now destruct (InvoiceServices.validateSize b).
  - intros f. reflexivity.
Qed.

Lemma uploadInvoice_depends_on_verdicts_only_witness :
  validatePDF Cases.loose_answers InvoiceServices.unencryptedPdfBuffer
    "application/pdf" "invoice.pdf" = Js.Resolved (Js.Bool false) /\
  uploadInvoice Cases.loose_answers Sample.good_request
  = uploadInvoice Sample.services Sample.good_request.
Proof.
  split; [reflexivity|].
  apply (uploadInvoice_depends_on_verdicts_only Sample.services Cases.loose_answers).
  exact loose_answers_same_verdicts.
Defined.

(** ** The middleware in front of the handler *)

(** X15. Putting [uploadMiddleware] in front of [uploadInvoice] answers
    exactly as [uploadInvoice] does on the request Multer has filled: the
    middleware's own 400 "No file uploaded" is the answer the handler would
    give, with no collaborator called in either case. *)
Theorem middleware_then_handler :
  forall (svc : Services) (h : HttpRequest) (req : Request),
    dispatch svc h post_upload_with_middleware req
      = dispatch svc h post_upload (multer_single h req) /\
    (file (multer_single h req) = None ->
       dispatch svc h post_upload_with_middleware req = ([], Some no_file_uploaded)).
Proof.
  intros svc h req.
  unfold post_upload_with_middleware, post_upload, dispatch, uploadMiddleware.
  destruct (file (multer_single h req)) as [f|] eqn:Hf.
  - split; [reflexivity | discriminate].
  - rewrite (stops_without_file svc (multer_single h req) Hf). cbn.
    split; [reflexivity | intros _; reflexivity].
Qed.

Lemma middleware_then_handler_witness :
  dispatch Sample.services Cases.plain_message post_upload_with_middleware
           (express_request Cases.plain_message)
  = ([], Some no_file_uploaded).
Proof.
  apply (middleware_then_handler Sample.services Cases.plain_message
           (express_request Cases.plain_message)).
  reflexivity.
Defined.

(** ** The first version of the controller *)



(** ** Rejections of the collaborators *)

(** The format validator breaking on a sound request: the answer is 415. *)
Lemma format_crash_is_answered_415 :
  raises Cases.format_crash Sample.good_request Cases.crash /\
  uploadInvoice Cases.format_crash Sample.good_request
    = (calls_to_format Sample.pdf_file Sample.good_body, Stmt.Return not_pdf) /\
  uploadInvoice Cases.size_crash Sample.good_request
    = (calls_to_size Sample.pdf_file Sample.good_body, Stmt.Return size_exceeded).
Proof.
  split; [|split; reflexivity].
  exists (CallValidatePDF (buffer Sample.pdf_file) (mimetype Sample.pdf_file)
                          (originalname Sample.pdf_file)).
  split; [|reflexivity]. vm_compute. tauto.
Qed.

(** C2, as stated, fails: a [TypeError] thrown by validatePDF while a sound
    request is handled is not answered with status 500 but with 415, by
    the [catch] around that call. *)
Lemma unexpected_fault_is_not_always_500 :
  ~ (forall (svc : Services) (req : Request) (m : string),
       raises svc req (Js.TypeError m) -> status_of svc req = Some 500%Z).
Proof.
  intros H.
  specialize (H Cases.format_crash Sample.good_request
                "Cannot read properties of undefined (reading 'subarray')").
  assert (Hraises : raises Cases.format_crash Sample.good_request Cases.crash).
  { exists (CallValidatePDF (buffer Sample.pdf_file) (mimetype Sample.pdf_file)
                            (originalname Sample.pdf_file)).
    split; [|reflexivity]. vm_compute. tauto. }
  specialize (H Hraises). vm_compute in H. discriminate H.
Qed.

(** A rejection among the calls of a run can only come from the call the
    run ended on. *)
Lemma raises_status svc req e :
  raises svc req e ->
  status_of svc req = Some 500%Z \/ status_of svc req = Some 415%Z \/
  status_of svc req = Some 413%Z.
Proof.
  unfold raises, status_of.
  destruct (uploadInvoice_answer svc req) as (tr & r & E & A).
  rewrite E. cbn [fst snd]. intros (c & Hin & Hrej).
  destruct A; cbn; auto; exfalso;
    unfold_reach;
    repeat match goal with
           | H : _ /\ _ |- _ => destruct H
           | H : exists _, _ |- _ => destruct H
           end;
    cbn [fst snd] in *; cbn in Hin;
    repeat match goal with
           | H : _ \/ _ |- _ => destruct H as [<-|H]
           | H : False |- _ => destruct H
           end;
    unfold authenticate_call, credentials in Hrej;
    cbn [call_outcome fst snd] in Hrej; congruence.
Qed.

(** C2, amended. No throw leaves the handler, and no answer depends on
    what a rejection carried.  A fault that escapes the inner [catch]
    blocks (reading the credentials of an undefined body, or a rejection of
    isPdfEncrypted, of checkPdfIntegrity or of the upload call) is answered
    with status 500 and the body "Internal server error".  A rejection of a
    call that has a [catch] of its own is answered by that branch, whatever
    was thrown: 415 for validatePDF, 413 for validateSizeFile, and 500 with
    the body "Internal Server Error" for authenticate.  So a rejection of a
    collaborator is answered with 500, 415 or 413. *)
Theorem uploadInvoice_fault_answers :
  forall (svc : Services) (req : Request),
    (forall e, snd (uploadInvoice svc req) <> Stmt.Throw e) /\
    (forall e, snd (uploadInvoice_try svc req) = Stmt.Throw e ->
       snd (uploadInvoice svc req) = Stmt.Return internal_server_error) /\
    (forall f, file req = Some f -> body req = None ->
       snd (uploadInvoice svc req) = Stmt.Return internal_server_error) /\
    (forall f b e, reaches_encryption svc req f b ->
       isPdfEncrypted svc (buffer f) = Js.Rejected e ->
       snd (uploadInvoice svc req) = Stmt.Return internal_server_error) /\
    (forall f b e, reaches_integrity svc req f b ->
       checkPdfIntegrity svc (buffer f) = Js.Rejected e ->
       snd (uploadInvoice svc req) = Stmt.Return internal_server_error) /\
    (forall f b e, reaches_upload svc req f b ->
       uploadInvoiceService svc f = Js.Rejected e ->
       snd (uploadInvoice svc req) = Stmt.Return internal_server_error) /\
    (forall f b e, reaches_format svc req f b ->
       validatePDF svc (buffer f) (mimetype f) (originalname f) = Js.Rejected e ->
       snd (uploadInvoice svc req)
         = Stmt.Return (mkResponse 415 (message "File format is not PDF"))) /\
    (forall f b e, reaches_size svc req f b ->
       validateSizeFile svc (buffer f) = Js.Rejected e ->
       snd (uploadInvoice svc req)
         = Stmt.Return (mkResponse 413 (message "File size exceeds maximum limit"))) /\
    (forall f b e, file req = Some f -> body req = Some b ->
       authenticate_outcome svc b = Js.Rejected e ->
       snd (uploadInvoice svc req)
         = Stmt.Return (mkResponse 500 (message "Internal Server Error"))) /\
    (forall e, raises svc req e ->
       status_of svc req = Some 500%Z \/ status_of svc req = Some 415%Z \/
       status_of svc req = Some 413%Z) /\
    (forall svc', same_up_to_fault_detail svc svc' ->
       uploadInvoice svc' req = uploadInvoice svc req) /\
    internal_server_error = mkResponse 500 (message "Internal server error").
Proof.
  intros svc req.
  split.
  { intros e H. destruct (uploadInvoice_answer svc req) as (tr & r & E & _).
    rewrite E in H. discriminate H. }
  split.
  { intros e H. now rewrite (try_block_throw_is_caught svc req e H). }
  split.
  { intros f Hf Hb. now rewrite (stops_without_body svc req f Hf Hb). }
  split.
  { intros f b e Hr H. now rewrite (stops_when_detector_rejects svc req f b e Hr H). }
  split.
  { intros f b e Hr H. now rewrite (stops_when_integrity_rejects svc req f b e Hr H). }
  split.
  { intros f b e Hr H. now rewrite (stops_when_upload_rejects svc req f b e Hr H). }
  split.
  { intros f b e Hr H. now rewrite (stops_when_format_rejects svc req f b e Hr H). }
  split.
  { intros f b e Hr H. now rewrite (stops_when_size_rejects svc req f b e Hr H). }
  split.
  { intros f b e Hf Hb H.
    now rewrite (stops_when_authenticate_rejects svc req f b e Hf Hb H). }
  split.
  { intros e. apply raises_status. }
  split.
  { intros svc'. apply fault_detail_is_not_observable. }
  reflexivity.
Qed.

Lemma uploadInvoice_fault_answers_witness :
  snd (uploadInvoice Sample.detector_down Sample.good_request)
    = Stmt.Return (mkResponse 500 (message "Internal server error")) /\
  snd (uploadInvoice Sample.integrity_down Sample.good_request)
    = Stmt.Return (mkResponse 500 (message "Internal server error")) /\
  snd (uploadInvoice Sample.upload_down Sample.good_request)
    = Stmt.Return (mkResponse 500 (message "Internal server error")) /\
  snd (uploadInvoice Sample.services Cases.no_body_request)
    = Stmt.Return (mkResponse 500 (message "Internal server error")) /\
  (status_of Cases.format_crash Sample.good_request = Some 500%Z \/
   status_of Cases.format_crash Sample.good_request = Some 415%Z \/
   status_of Cases.format_crash Sample.good_request = Some 413%Z).
Proof.
  split; [|split; [|split; [|split]]].
  - apply (proj1 (proj2 (uploadInvoice_fault_answers
                           Sample.detector_down Sample.good_request)) Sample.boom).
    reflexivity.
  - apply (proj1 (proj2 (uploadInvoice_fault_answers
                           Sample.integrity_down Sample.good_request)) Sample.boom).
    reflexivity.
  - apply (proj1 (proj2 (uploadInvoice_fault_answers
                           Sample.upload_down Sample.good_request)) Sample.boom).
    reflexivity.
  - apply (proj1 (proj2 (proj2 (uploadInvoice_fault_answers
                                  Sample.services Cases.no_body_request)))
             Sample.pdf_file); reflexivity.
  - apply (proj1 (proj2 (proj2 (proj2 (proj2 (proj2 (proj2 (proj2 (proj2 (proj2
             (uploadInvoice_fault_answers Cases.format_crash Sample.good_request))))))))))
             Cases.crash).
    exists (CallValidatePDF (buffer Sample.pdf_file) (mimetype Sample.pdf_file)
                            (originalname Sample.pdf_file)).
    split; [|reflexivity]. vm_compute. tauto.
Defined.
